(** * Qwen image-edit API service

    A shallow embedding of [qwen-api-service/app.py]: the camera and
    lighting preset tables, prompt assembly, the two edit handlers, the
    models listing, and start-up model provisioning (hub first, object
    storage as fallback); with them, the configuration read from the
    environment, the request the endpoint tester [test_endpoint.py] posts,
    and the preset tables and the request of the UI tool
    [tools/qwen_camera_studio.py].

    Conventions.
    - A Python [str] is a Rocq [string] holding its UTF-8 bytes, so that
      concatenation, equality and emptiness read the same on both sides.
    - A handler is modelled from the outcome of [json.loads(request.body)]:
      the value it returned or the exception it raised.
    - [Response.body] holds the object handed to [json.dumps].
    - The image codec (Pillow) and the network services are collaborators:
      the handlers are parametrised by a [Runtime], the provisioner by a
      [World]. *)

From Stdlib Require Import ZArith NArith String Ascii List Bool Lia.
From Stdlib Require Import Floats.SpecFloat.
From stdpp Require Import base option gmap strings list pretty.

Set Warnings "-clear-no-such-hyp".

Local Open Scope string_scope.

(** ** Python values and exceptions *)

Module Py.

(** Hashable values [json.loads] yields: [None], [bool], [int], [float], [str]. *)
Inductive atom : Type :=
| ANone
| ABool (b : bool)
| AInt (n : Z)
| AFloat (x : spec_float)
| AStr (s : string).

(** Values [json.loads] yields; a [dict] keeps its items in insertion order. *)
#[warnings="-register-all"]
Inductive value : Type :=
| Atom (a : atom)
| VList (l : list value)
| VDict (d : list (string * value)).

Abbreviation VNone := (Atom ANone).
Abbreviation VBool b := (Atom (ABool b)).
Abbreviation VInt n := (Atom (AInt n)).
Abbreviation VStr s := (Atom (AStr s)).

(** [type(v).__name__] *)
Definition type_name (v : value) : string :=
  match v with
  | Atom ANone => "NoneType"
  | Atom (ABool _) => "bool"
  | Atom (AInt _) => "int"
  | Atom (AFloat _) => "float"
  | Atom (AStr _) => "str"
  | VList _ => "list"
  | VDict _ => "dict"
  end.

(** [bool(a)] *)
Definition atom_truthy (a : atom) : bool :=
  match a with
  | ANone => false
  | ABool b => b
  | AInt n => negb (n =? 0)%Z
  | AFloat (S754_zero _) => false
  | AFloat _ => true
  | AStr s => negb (String.eqb s "")
  end.

(** [bool(v)]: what [if v:] and [not v] test. *)
Definition truthy (v : value) : bool :=
  match v with
  | Atom a => atom_truthy a
  | VList l => negb (bool_decide (l = []))
  | VDict d => match d with [] => false | _ :: _ => true end
  end.

(** The exception classes an [except] clause of the service names,
    [json.JSONDecodeError] and [minio.error.S3Error], and [Exception] for
    an exception of any other class; each carries [str(e)]. *)
Inductive exn : Type :=
| JSONDecodeError (msg : string)
| S3Error (msg : string)
| Exception (msg : string).

(** [str(e)] *)
Definition str_exn (e : exn) : string :=
  match e with
  | JSONDecodeError msg | S3Error msg | Exception msg => msg
  end.

(** Outcome of a call: a returned value or a raised exception. *)
Inductive result (A : Type) : Type :=
| Return (a : A)
| Raise (e : exn).
Arguments Return {A} a.
Arguments Raise {A} e.

#[global] Instance result_ret : MRet result := fun A a => Return a.
#[global] Instance result_bind : MBind result := fun A B f m =>
  match m with
  | Return a => f a
  | Raise e => Raise e
  end.

(** A failure of the codecs is of neither named class: it reports a message. *)
Definition lift {A : Type} (r : string + A) : result A :=
  match r with
  | inr a => Return a
  | inl msg => Raise (Exception msg)
  end.

(** [d.get(key, default)] on a [dict] with [str] keys. *)
Fixpoint dict_get (d : list (string * value)) (key : string) (default : value) : value :=
  match d with
  | [] => default
  | (k, v) :: d' => if String.eqb k key then v else dict_get d' key default
  end.

(** [d[key] = v]: replaces the value in place, or appends a new item. *)
Fixpoint dict_set (d : list (string * value)) (key : string) (v : value) : list (string * value) :=
  match d with
  | [] => [(key, v)]
  | (k, v') :: d' => if String.eqb k key then (k, v) :: d' else (k, v') :: dict_set d' key v
  end.

(** [body.get(key, default)] on whatever [json.loads] returned: only a
    [dict] has the attribute. *)
Definition get (body : value) (key : string) (default : value) : result value :=
  match body with
  | VDict d => Return (dict_get d key default)
  | _ => Raise (Exception ("'" +:+ type_name body +:+ "' object has no attribute 'get'"))
  end.

(** [hash(key)], the first step of a [dict] lookup: a [list] or a [dict]
    is unhashable. *)
Definition hash (key : value) : result atom :=
  match key with
  | Atom a => Return a
  | VList _ | VDict _ => Raise (Exception ("unhashable type: '" +:+ type_name key +:+ "'"))
  end.

(** [table.get(key, default)] on a table with [str] keys, once the key is
    hashed: a key that is not a [str] equals no key of the table. *)
Definition table_get (table : gmap string string) (key default : atom) : atom :=
  match key with
  | AStr name => match table !! name with Some fragment => AStr fragment | None => default end
  | _ => default
  end.

(** [lhs += rhs] with a [str] on the right: concatenation on a [str], a
    [TypeError] on every other hashable value. *)
Definition iadd_str (lhs : atom) (rhs : string) : result atom :=
  match lhs with
  | AStr s => Return (AStr (s +:+ rhs))
  | _ => Raise (Exception ("unsupported operand type(s) for +=: '" +:+ type_name (Atom lhs)
                           +:+ "' and 'str'"))
  end.

End Py.
Import Py.

(** ** Base64, as [base64.b64encode] and [base64.b64decode] compute it *)

Module Base64.

Local Open Scope N_scope.

(** A Python [bytes] object. *)
Definition bytes : Type := list ascii.

Definition alphabet : string :=
  "ABCDEFGHIJKLMNOPQRSTUVWXYZabcdefghijklmnopqrstuvwxyz0123456789+/".

Definition PAD : ascii := "="%char.

(** The encoder's table: the character of a six-bit group. *)
Definition table_b2a (n : N) : ascii :=
  match String.get (N.to_nat n) alphabet with
  | Some c => c
  | None => PAD
  end.

(** The decoder's table: the six-bit group of a character of the alphabet. *)
Definition table_a2b (c : ascii) : option N :=
  let n := N_of_ascii c in
  if (65 <=? n) && (n <=? 90) then Some (n - 65)
  else if (97 <=? n) && (n <=? 122) then Some (n - 71)
  else if (48 <=? n) && (n <=? 57) then Some (n + 4)
  else if n =? 43 then Some 62
  else if n =? 47 then Some 63
  else None.

(** [base64.b64encode(data).decode()]: three bytes make four characters,
    and a last group of one or two bytes is padded with [=]. *)
Fixpoint b64encode (data : bytes) : string :=
  match data with
  | [] => ""
  | [a] =>
      let a := N_of_ascii a in
      String (table_b2a (a / 4)) (String (table_b2a (a mod 4 * 16)) "==")
  | [a; b] =>
      let a := N_of_ascii a in
      let b := N_of_ascii b in
      String (table_b2a (a / 4)) (String (table_b2a (a mod 4 * 16 + b / 16))
        (String (table_b2a (b mod 16 * 4)) "="))
  | a :: b :: c :: rest =>
      let a := N_of_ascii a in
      let b := N_of_ascii b in
      let c := N_of_ascii c in
      String (table_b2a (a / 4)) (String (table_b2a (a mod 4 * 16 + b / 16))
        (String (table_b2a (b mod 16 * 4 + c / 64)) (String (table_b2a (c mod 64))
          (b64encode rest))))
  end.

(** The decoder's loop in its lenient mode (no [validate]): characters
    outside the alphabet are skipped, a complete pad sequence stops the
    scan, and a group left open at the end of the text is an error.
    [quad_pos] counts the characters of the open group, [leftchar] holds
    its pending bits, [pads] the [=] seen since the last character. *)
Fixpoint a2b_loop (text : string) (quad_pos leftchar pads : N) (out : bytes) : string + bytes :=
  match text with
  | EmptyString =>
      if quad_pos =? 0 then inr out
      else if quad_pos =? 1 then
        inl ("Invalid base64-encoded string: number of data characters ("
             +:+ pretty (N.of_nat (length out) / 3 * 4 + 1)
             +:+ ") cannot be 1 more than a multiple of 4")
      else inl "Incorrect padding"
  | String this_ch rest =>
      if Ascii.eqb this_ch PAD then
        if 2 <=? quad_pos then
          if 4 <=? quad_pos + (pads + 1) then inr out
          else a2b_loop rest quad_pos leftchar (pads + 1) out
        else a2b_loop rest quad_pos leftchar pads out
      else
        match table_a2b this_ch with
        | None => a2b_loop rest quad_pos leftchar pads out
        | Some this_ch =>
            if quad_pos =? 0 then a2b_loop rest 1 this_ch 0 out
            else if quad_pos =? 1 then
              a2b_loop rest 2 (this_ch mod 16) 0 (out ++ [ascii_of_N (leftchar * 4 + this_ch / 16)])%list
            else if quad_pos =? 2 then
              a2b_loop rest 3 (this_ch mod 4) 0 (out ++ [ascii_of_N (leftchar * 16 + this_ch / 4)])%list
            else
              a2b_loop rest 0 0 0 (out ++ [ascii_of_N (leftchar * 64 + this_ch)])%list
        end
  end.

Definition a2b_base64 (text : string) : string + bytes :=
  a2b_loop text 0 0 0 [].

Definition is_ascii (c : ascii) : bool := N_of_ascii c <? 128.

Fixpoint all_ascii (s : string) : bool :=
  match s with
  | EmptyString => true
  | String c rest => is_ascii c && all_ascii rest
  end.

(** [base64.b64decode(s)]: a [str] must be ASCII and is then decoded; any
    other value [json.loads] can yield is a [TypeError]. *)
Definition b64decode (s : value) : result bytes :=
  match s with
  | VStr text =>
      if all_ascii text then lift (a2b_base64 text)
      else Raise (Exception "string argument should contain only ASCII characters")
  | _ =>
      Raise (Exception ("argument should be a bytes-like object or ASCII string, not '"
                        +:+ type_name s +:+ "'"))
  end.

End Base64.
Import Base64.

(** ** Preset registry *)

Definition camera_presets : gmap string string :=
  list_to_map [
    ("Front View", "正面视角, front view, facing camera directly");
    ("Profile Left", "左侧轮廓, left profile view, 90 degree side angle");
    ("Profile Right", "右侧轮廓, right profile view, 90 degree side angle");
    ("Back View", "背面视角, back view, rear angle");
    ("Three-Quarter Left", "左侧四分之三视角, left three-quarter view");
    ("Three-Quarter Right", "右侧四分之三视角, right three-quarter view");
    ("Top Down View", "俯视图, top-down view, bird's eye perspective");
    ("Low Angle", "仰角视图, low angle shot looking up");
    ("Eye Level", "平视, eye level view, neutral height");
    ("High Angle", "俯角, high angle looking down");
    ("Dolly In", "向前推进, camera dollies forward, push in");
    ("Dolly Out", "向后拉出, camera dollies backward, pull out");
    ("Crane Up", "摇臂上升, crane shot moving upward");
    ("Crane Down", "摇臂下降, crane shot moving downward");
    ("Orbit Left", "向左环绕, orbit rotating left around subject");
    ("Orbit Right", "向右环绕, orbit rotating right around subject");
    ("Pan Left", "向左平移, camera pans to the left");
    ("Pan Right", "向右平移, camera pans to the right");
    ("FPV Drone", "第一人称无人机, FPV drone shot, dynamic motion");
    ("Crash Zoom In", "快速推进, rapid zoom in, dramatic focus");
    ("Wide Angle", "广角镜头, wide angle lens, expansive view");
    ("Close Up", "特写镜头, close-up shot, tight framing");
    ("Dutch Angle", "荷兰角度, tilted angle, canted frame")
  ].

Definition lighting_presets : gmap string string :=
  list_to_map [
    ("None", "");
    ("Cinematic", "cinematic lighting, dramatic shadows");
    ("Soft Natural", "soft natural lighting, diffused");
    ("Studio", "studio lighting setup, professional");
    ("Sunset", "warm sunset lighting, golden hour");
    ("Neon", "neon lighting, vibrant colors");
    ("Volumetric", "volumetric lighting, atmospheric rays")
  ].

#[global] Arguments camera_presets : simpl never.
#[global] Arguments lighting_presets : simpl never.

(** [camera_presets.get(camera_preset, camera_preset)]: a miss passes the
    key itself through. *)
Definition camera_instruction (camera_preset : value) : result atom :=
  key ← hash camera_preset;
  mret (table_get camera_presets key key).

(** [lighting_presets.get(lighting, "")]: a miss yields the empty string. *)
Definition lighting_instruction (lighting : value) : result atom :=
  key ← hash lighting;
  mret (table_get lighting_presets key (AStr "")).

(** ** Prompt assembly *)

(** The pluggable part of the interpreter and of Pillow: decoding an image
    file, writing an image as PNG, the pixel content of an image, and
    [str(v)] as an f-string applies it to a value that is not a [str]. *)
Class Runtime : Type := {
  Image : Type;
  Pixels : Type;
  (** [Image.open(io.BytesIO(data))] *)
  Image_open : bytes → string + Image;
  (** [image.save(buffer, format="PNG")] followed by [buffer.getvalue()] *)
  Image_save_PNG : Image → string + bytes;
  pixel_content : Image → Pixels;
  builtin_str : value → string;
}.

(** [f"{v}"] *)
Definition format_value `{rt : Runtime} (v : value) : string :=
  match v with
  | VStr s => s
  | _ => builtin_str v
  end.

(** Lines 361-365 of [camera_edit]: the prompt starts as the camera
    instruction; a lighting instruction and an additional prompt are
    appended after [", "] when they are truthy. *)
Definition full_prompt `{rt : Runtime}
    (camera_instruction lighting_instruction : atom) (additional_prompt : value) : result atom :=
  let full_prompt := camera_instruction in
  full_prompt ←
    (if atom_truthy lighting_instruction
     then iadd_str full_prompt (", " +:+ format_value (Atom lighting_instruction))
     else mret full_prompt);
  full_prompt ←
    (if truthy additional_prompt
     then iadd_str full_prompt (", " +:+ format_value additional_prompt)
     else mret full_prompt);
  mret full_prompt.

(** ** HTTP handlers *)

Record Response : Type := mkResponse {
  status_code : Z;
  body : value;
  headers : list (string * string);
}.

Definition json_headers : list (string * string) :=
  [("Content-Type", "application/json")].

Definition error_body (message : string) : value :=
  VDict [("error", VStr message)].

(** The two [except] clauses shared by the edit handlers: a
    [json.JSONDecodeError] answers 400, any other exception answers 500
    with [str(e)]. *)
Definition handle (attempt : result Response) : Response :=
  match attempt with
  | Return response => response
  | Raise (JSONDecodeError _) => mkResponse 400 (error_body "Invalid JSON") json_headers
  | Raise e => mkResponse 500 (error_body (str_exn e)) json_headers
  end.

(** [GET /health] *)
Definition health_check : Response :=
  mkResponse 200 (VDict [("status", VStr "healthy"); ("service", VStr "qwen-api")]) json_headers.

(** The [try] block of [edit_image]; [loaded] is the outcome of
    [json.loads(request.body)]. *)
Definition edit_image_try `{rt : Runtime} (loaded : result value) : result Response :=
  body ← loaded;
  image_base64 ← get body "image" VNone;
  prompt ← get body "prompt" (VStr "");
  steps ← get body "steps" (VInt 8);
  use_lightning ← get body "use_lightning" (VBool true);
  if negb (truthy image_base64) then
    mret (mkResponse 400 (error_body "Missing image data") json_headers)
  else
    image_data ← b64decode image_base64;
    image ← lift (Image_open image_data);
    output ← lift (Image_save_PNG image);
    let output_base64 := b64encode output in
    mret (mkResponse 200
            (VDict [("image", VStr output_base64);
                    ("prompt", prompt);
                    ("steps", steps);
                    ("lightning", use_lightning)])
            json_headers).

(** [POST /api/v1/edit] *)
Definition edit_image `{rt : Runtime} (loaded : result value) : Response :=
  handle (edit_image_try loaded).

(** The [try] block of [camera_edit]. *)
Definition camera_edit_try `{rt : Runtime} (loaded : result value) : result Response :=
  body ← loaded;
  image_base64 ← get body "image" VNone;
  camera_preset ← get body "camera_preset" (VStr "Front View");
  lighting ← get body "lighting" (VStr "Cinematic");
  additional_prompt ← get body "additional_prompt" (VStr "");
  steps ← get body "steps" (VInt 8);
  use_lightning ← get body "use_lightning" (VBool true);
  if negb (truthy image_base64) then
    mret (mkResponse 400 (error_body "Missing image data") json_headers)
  else
    camera_instruction ← camera_instruction camera_preset;
    lighting_instruction ← lighting_instruction lighting;
    full_prompt ← full_prompt camera_instruction lighting_instruction additional_prompt;
    image_data ← b64decode image_base64;
    image ← lift (Image_open image_data);
    output ← lift (Image_save_PNG image);
    let output_base64 := b64encode output in
    mret (mkResponse 200
            (VDict [("image", VStr output_base64);
                    ("camera_preset", camera_preset);
                    ("lighting", lighting);
                    ("prompt", Atom full_prompt);
                    ("steps", steps);
                    ("lightning", use_lightning)])
            json_headers).

(** [POST /api/v1/camera-edit] *)
Definition camera_edit `{rt : Runtime} (loaded : result value) : Response :=
  handle (camera_edit_try loaded).

(** ** Model provisioning *)

(** The module-level configuration, read from the environment at import. *)
Record Config : Type := {
  USE_HUGGINGFACE : bool;
  HUGGINGFACE_MODEL_ID : string;
  HF_TOKEN : string;
  MINIO_ENDPOINT : string;
  MINIO_ACCESS_KEY : string;
  MINIO_SECRET_KEY : string;
  MINIO_BUCKET_NAME : string;
  MINIO_SECURE : bool;
}.

Fixpoint drop_while {A : Type} (p : A → bool) (l : list A) : list A :=
  match l with
  | [] => []
  | x :: l' => if p x then drop_while p l' else l
  end.

(** [os.path.join(a, b)] *)
Definition path_join (a b : string) : string :=
  match b with
  | String "/" _ => b
  | _ =>
      match rev (list_ascii_of_string a) with
      | [] => b
      | "/"%char :: _ => a +:+ b
      | _ => a +:+ "/" +:+ b
      end
  end.

(** [os.path.dirname(p)]: the text up to the last [/], without trailing
    separators unless it consists of separators only. *)
Definition dirname (p : string) : string :=
  let not_sep := fun c : ascii => negb (Ascii.eqb c "/") in
  let head := drop_while not_sep (rev (list_ascii_of_string p)) in
  match drop_while (fun c => negb (not_sep c)) head with
  | [] => string_of_list_ascii (rev head)
  | stripped => string_of_list_ascii (rev stripped)
  end.

Definition MODEL_CACHE_DIR : string := "/app/models".
Definition HUGGINGFACE_CACHE_DIR : string := path_join MODEL_CACHE_DIR "huggingface".
Definition LORA_DIR : string := path_join MODEL_CACHE_DIR "loras".

#[global] Arguments MODEL_CACHE_DIR : simpl never.
#[global] Arguments HUGGINGFACE_CACHE_DIR : simpl never.
#[global] Arguments LORA_DIR : simpl never.

(** The storage client [Minio(...)] builds. *)
Record Minio : Type := mkMinio {
  endpoint : string;
  access_key : string;
  secret_key : string;
  secure : bool;
}.

(** The global [qwen_model]: [None], the object [AutoModel.from_pretrained]
    returned for a path, or the [dict] that stands for a model on disk. *)
Inductive qwen : Type :=
| QNone
| QAutoModel (model_path : string)
| QDict (d : list (string * value)).

Inductive level : Type := INFO | WARNING | ERROR.

(** The module's globals, the records the logger received, and the paths
    that exist on disk. *)
Record State : Type := mkState {
  minio_client : option Minio;
  qwen_model : qwen;
  lora_models : list (string * value);
  log : list (level * string);
  fs : gset string;
}.

(** What the collaborators answer: [None] or [inr] for a call that
    returns, a message for a call that raises. *)
Record World : Type := {
  (** [Minio(endpoint, access_key=, secret_key=, secure=)] *)
  Minio_init : string → string → string → bool → option string;
  (** [os.makedirs(path, exist_ok=True)] *)
  makedirs : string → option string;
  (** [snapshot_download(repo_id=, cache_dir=, token=, ...)] *)
  snapshot_download : string → string → option string → string + string;
  (** [AutoModel.from_pretrained(model_path, ..., token=)] *)
  from_pretrained : string → option string → option string;
  (** [client.fget_object(bucket_name, object_name, file_path)] *)
  fget_object : Minio → string → string → string → option exn;
}.

(** A computation over the globals that returns or raises; the state it
    reached is kept either way. *)
Definition Prov (A : Type) : Type := State → result A * State.

#[global] Instance prov_ret : MRet Prov := fun A a s => (Return a, s).
#[global] Instance prov_bind : MBind Prov := fun A B f m s =>
  match m s with
  | (Return a, s') => f a s'
  | (Raise e, s') => (Raise e, s')
  end.

(** [try: m except Exception as e: handler(e)] *)
Definition try_except {A : Type} (m : Prov A) (handler : exn → Prov A) : Prov A :=
  fun s =>
    match m s with
    | (Return a, s') => (Return a, s')
    | (Raise e, s') => handler e s'
    end.

Definition raise {A : Type} (e : exn) : Prov A := fun s => (Raise e, s).

Definition logger (lvl : level) (msg : string) : Prov unit :=
  fun s => (Return (),
            mkState (minio_client s) (qwen_model s) (lora_models s)
                    (log s ++ [(lvl, msg)])%list (fs s)).

Definition set_minio_client (client : option Minio) : Prov unit :=
  fun s => (Return (), mkState client (qwen_model s) (lora_models s) (log s) (fs s)).

Definition set_qwen_model (model : qwen) : Prov unit :=
  fun s => (Return (), mkState (minio_client s) model (lora_models s) (log s) (fs s)).

Definition create_path (path : string) : Prov unit :=
  fun s => (Return (),
            mkState (minio_client s) (qwen_model s) (lora_models s) (log s) ({[path]} ∪ fs s)).

Definition get_minio_client : Prov (option Minio) := fun s => (Return (minio_client s), s).

(** [os.path.exists(path)] *)
Definition os_path_exists (path : string) : Prov bool :=
  fun s => (Return (bool_decide (path ∈ fs s)), s).

Section Provisioner.
Context (cfg : Config) (w : World).

Definition os_makedirs (path : string) : Prov unit :=
  match makedirs w path with
  | None => create_path path
  | Some msg => raise (Exception msg)
  end.

(** [HF_TOKEN if HF_TOKEN else None] *)
Definition token : option string :=
  if String.eqb (HF_TOKEN cfg) "" then None else Some (HF_TOKEN cfg).

#[local] Arguments token : simpl never.

(** Lines 46-58: the client is built only when both credentials are
    non-empty, and stays [None] when the constructor raises. *)
Definition init_minio_client : Prov unit :=
  set_minio_client None;;
  if negb (String.eqb (MINIO_ACCESS_KEY cfg) "") && negb (String.eqb (MINIO_SECRET_KEY cfg) "")
  then
    try_except
      (match Minio_init w (MINIO_ENDPOINT cfg) (MINIO_ACCESS_KEY cfg) (MINIO_SECRET_KEY cfg)
               (MINIO_SECURE cfg) with
       | None =>
           set_minio_client (Some (mkMinio (MINIO_ENDPOINT cfg) (MINIO_ACCESS_KEY cfg)
                                           (MINIO_SECRET_KEY cfg) (MINIO_SECURE cfg)));;
           logger INFO ("Connected to MINIO at " +:+ MINIO_ENDPOINT cfg)
       | Some msg => raise (Exception msg)
       end)
      (fun e => logger ERROR ("Failed to connect to MINIO: " +:+ str_exn e))
  else mret ().

Definition download_from_minio (bucket_name object_name file_path : string) : Prov bool :=
  client ← get_minio_client;
  match client with
  | None => logger WARNING "MINIO client not initialized";; mret false
  | Some client =>
      try_except
        (os_makedirs (dirname file_path);;
         match fget_object w client bucket_name object_name file_path with
         | None => create_path file_path
         | Some e => raise e
         end;;
         logger INFO ("Downloaded " +:+ object_name +:+ " from MINIO to " +:+ file_path);;
         mret true)
        (fun e =>
           match e with
           | S3Error _ =>
               logger ERROR ("MINIO error downloading " +:+ object_name +:+ ": " +:+ str_exn e);;
               mret false
           | _ =>
               logger ERROR ("Error downloading " +:+ object_name +:+ ": " +:+ str_exn e);;
               mret false
           end)
  end.

Definition load_models_from_huggingface : Prov bool :=
  os_makedirs HUGGINGFACE_CACHE_DIR;;
  try_except
    (logger INFO ("Downloading Qwen model from Hugging Face: " +:+ HUGGINGFACE_MODEL_ID cfg);;
     model_path ←
       match snapshot_download w (HUGGINGFACE_MODEL_ID cfg) HUGGINGFACE_CACHE_DIR token with
       | inr model_path => mret model_path
       | inl msg => raise (Exception msg)
       end;
     logger INFO ("Model downloaded to: " +:+ model_path);;
     try_except
       (match from_pretrained w model_path token with
        | None => set_qwen_model (QAutoModel model_path)
        | Some msg => raise (Exception msg)
        end;;
        logger INFO "Model loaded into memory successfully")
       (fun e =>
          logger WARNING ("Could not load model into memory: " +:+ str_exn e
                          +:+ ". Will use model path for inference.");;
          set_qwen_model (QDict [("path", VStr model_path); ("loaded", VBool false)]));;
     mret true)
    (fun e =>
       logger ERROR ("Failed to load models from Hugging Face: " +:+ str_exn e);;
       mret false).

Definition loras : list string :=
  ["Qwen-Edit-2509-Multiple-angles.safetensors";
   "Qwen-Image-Edit-Lightning-8steps-V1.0.safetensors"].

(** [for x in xs: body(x)] *)
Fixpoint for_each {A : Type} (xs : list A) (body : A → Prov unit) : Prov unit :=
  match xs with
  | [] => mret ()
  | x :: xs' => body x;; for_each xs' body
  end.

Definition load_models_from_minio : Prov unit :=
  os_makedirs MODEL_CACHE_DIR;;
  os_makedirs LORA_DIR;;
  let qwen_model_path := path_join MODEL_CACHE_DIR "qwen-image-edit" in
  present ← os_path_exists qwen_model_path;
  (if negb present then
     logger INFO "Downloading Qwen Image Edit model from MINIO...";;
     download_from_minio (MINIO_BUCKET_NAME cfg) "qwen-image-edit/model.safetensors"
                         (path_join qwen_model_path "model.safetensors");;
     mret ()
   else mret ());;
  for_each loras (fun lora_name =>
    let lora_path := path_join LORA_DIR lora_name in
    present ← os_path_exists lora_path;
    if negb present then
      logger INFO ("Downloading LoRA " +:+ lora_name +:+ " from MINIO...");;
      download_from_minio (MINIO_BUCKET_NAME cfg) ("loras/" +:+ lora_name) lora_path;;
      mret ()
    else mret ());;
  logger INFO "Models downloaded from MINIO successfully".

(** Lines 164-170 of [load_models]. *)
Definition fallback_to_minio : Prov unit :=
  client ← get_minio_client;
  match client with
  | Some _ =>
      logger INFO "Loading models from MINIO S3...";;
      load_models_from_minio;;
      logger INFO "✓ Models loaded from MINIO"
  | None => logger WARNING "Neither Hugging Face nor MINIO configured. Models not loaded."
  end.

Definition load_models : Prov unit :=
  if USE_HUGGINGFACE cfg then
    logger INFO "Attempting to load models from Hugging Face Hub...";;
    loaded ← load_models_from_huggingface;
    if (loaded : bool) then logger INFO "✓ Models loaded from Hugging Face"
    else
      logger WARNING "Hugging Face download failed, falling back to MINIO...";;
      fallback_to_minio
  else fallback_to_minio.

Definition startup : Prov unit :=
  logger INFO "Starting Qwen API service...";;
  load_models;;
  logger INFO "Qwen API service started".

(** The module as the interpreter runs it up to the start-up hook: the
    client, the two model globals, then [startup] on a disk holding
    [disk]. *)
Definition boot (disk : gset string) : result unit * State :=
  (init_minio_client;; startup) (mkState None QNone [] [] disk).

(** [GET /api/v1/models] *)
Definition list_models (s : State) : Response :=
  let model_info :=
    [("loaded", VBool (match qwen_model s with QNone => false | _ => true end));
     ("source", VStr (if USE_HUGGINGFACE cfg then "huggingface" else "minio"));
     ("model_id", if USE_HUGGINGFACE cfg then VStr (HUGGINGFACE_MODEL_ID cfg) else VNone);
     ("path", VStr (if USE_HUGGINGFACE cfg then HUGGINGFACE_CACHE_DIR else MODEL_CACHE_DIR))] in
  let model_info :=
    match qwen_model s with
    | QDict d =>
        let model_info := dict_set model_info "path" (dict_get d "path" (VStr "unknown")) in
        dict_set model_info "loaded" (dict_get d "loaded" (VBool false))
    | _ => model_info
    end in
  let models :=
    VDict [("qwen_image_edit", VDict model_info);
           ("loras", VDict [("available",
                             VList (if truthy (VDict (lora_models s))
                                    then map (fun kv => VStr (fst kv)) (lora_models s)
                                    else []));
                            ("path", VStr LORA_DIR)]);
           ("cache_dirs", VDict [("huggingface", VStr HUGGINGFACE_CACHE_DIR);
                                 ("minio", VStr MODEL_CACHE_DIR);
                                 ("loras", VStr LORA_DIR)])] in
  mkResponse 200 models json_headers.

End Provisioner.

(** ** Configuration from the environment *)

(** [c.lower()] on an ASCII letter. The other characters are left as they
    are: none of them lower-cases into a letter of ["true"], the only text
    the module compares a lower-cased value with. *)
Definition ascii_lower (c : ascii) : ascii :=
  let n := N_of_ascii c in
  if ((65 <=? n) && (n <=? 90))%N then ascii_of_N (n + 32) else c.

Fixpoint lower (s : string) : string :=
  match s with
  | EmptyString => EmptyString
  | String c rest => String (ascii_lower c) (lower rest)
  end.

(** [os.getenv(name, default)] on the environment [env]. *)
Definition getenv (env : gmap string string) (name default : string) : string :=
  match env !! name with
  | Some text => text
  | None => default
  end.

(** [os.getenv(name, default).lower() == "true"] *)
Definition getenv_flag (env : gmap string string) (name default : string) : bool :=
  String.eqb (lower (getenv env name default)) "true".

(** [os.getenv(name) or otherwise]: an unset and an empty variable both
    give way. *)
Definition getenv_or (env : gmap string string) (name otherwise : string) : string :=
  match env !! name with
  | Some text => if String.eqb text "" then otherwise else text
  | None => otherwise
  end.

(** Lines 29-39: the module constants, read once at import. *)
Definition config_of_env (env : gmap string string) : Config := {|
  USE_HUGGINGFACE := getenv_flag env "USE_HUGGINGFACE" "true";
  HUGGINGFACE_MODEL_ID := getenv env "HUGGINGFACE_MODEL_ID" "Qwen/Qwen2-VL-2B-Instruct";
  HF_TOKEN := getenv_or env "HF_TOKEN" (getenv_or env "HUGGINGFACE_TOKEN" "");
  MINIO_ENDPOINT := getenv env "MINIO_ENDPOINT" "localhost:9000";
  MINIO_ACCESS_KEY := getenv env "MINIO_ACCESS_KEY" "";
  MINIO_SECRET_KEY := getenv env "MINIO_SECRET_KEY" "";
  MINIO_BUCKET_NAME := getenv env "MINIO_BUCKET_NAME" "qwen-models";
  MINIO_SECURE := getenv_flag env "MINIO_SECURE" "false";
|}.

(** ** The endpoint tester, [test_endpoint.py] *)


(** The payload [test_generic_edit] posts to [/api/v1/edit]. *)
Definition generic_edit_payload (image_base64 prompt : string) : list (string * value) :=
  [("image", VStr image_base64);
   ("prompt", VStr prompt);
   ("steps", VInt 8);
   ("use_lightning", VBool true)].

(** ** The UI tool, [tools/qwen_camera_studio.py] *)

Record Valves : Type := {
  QWEN_API_URL : string;
  USE_LIGHTNING : bool;
  DEFAULT_STEPS : Z;
}.

Definition default_valves : Valves := {|
  QWEN_API_URL := "http://qwen-api:8081";
  USE_LIGHTNING := true;
  DEFAULT_STEPS := 8;
|}.

(** [self.camera_presets] and [self.lighting_presets] of the tool. *)
Definition tool_camera_presets : gmap string string :=
  list_to_map [
    ("Front View", "正面视角, front view, facing camera directly");
    ("Profile Left", "左侧轮廓, left profile view, 90 degree side angle");
    ("Profile Right", "右侧轮廓, right profile view, 90 degree side angle");
    ("Back View", "背面视角, back view, rear angle");
    ("Three-Quarter Left", "左侧四分之三视角, left three-quarter view");
    ("Three-Quarter Right", "右侧四分之三视角, right three-quarter view");
    ("Top Down View", "俯视图, top-down view, bird's eye perspective");
    ("Low Angle", "仰角视图, low angle shot looking up");
    ("Eye Level", "平视, eye level view, neutral height");
    ("High Angle", "俯角, high angle looking down");
    ("Dolly In", "向前推进, camera dollies forward, push in");
    ("Dolly Out", "向后拉出, camera dollies backward, pull out");
    ("Crane Up", "摇臂上升, crane shot moving upward");
    ("Crane Down", "摇臂下降, crane shot moving downward");
    ("Orbit Left", "向左环绕, orbit rotating left around subject");
    ("Orbit Right", "向右环绕, orbit rotating right around subject");
    ("Pan Left", "向左平移, camera pans to the left");
    ("Pan Right", "向右平移, camera pans to the right");
    ("FPV Drone", "第一人称无人机, FPV drone shot, dynamic motion");
    ("Crash Zoom In", "快速推进, rapid zoom in, dramatic focus");
    ("Wide Angle", "广角镜头, wide angle lens, expansive view");
    ("Close Up", "特写镜头, close-up shot, tight framing");
    ("Dutch Angle", "荷兰角度, tilted angle, canted frame");
    ("Rotate 45° Left", "向左旋转45度, rotate camera 45 degrees left");
    ("Rotate 45° Right", "向右旋转45度, rotate camera 45 degrees right");
    ("Rotate 90° Left", "向左旋转90度, rotate camera 90 degrees left");
    ("Rotate 90° Right", "向右旋转90度, rotate camera 90 degrees right");
    ("Rotate 180°", "旋转180度, rotate camera 180 degrees, complete flip")
  ].

Definition tool_lighting_presets : gmap string string :=
  list_to_map [
    ("None", "");
    ("Cinematic", "cinematic lighting, dramatic shadows");
    ("Soft Natural", "soft natural lighting, diffused");
    ("Studio", "studio lighting setup, professional");
    ("Sunset", "warm sunset lighting, golden hour");
    ("Neon", "neon lighting, vibrant colors");
    ("Volumetric", "volumetric lighting, atmospheric rays")
  ].

#[global] Arguments tool_camera_presets : simpl never.
#[global] Arguments tool_lighting_presets : simpl never.

(** [steps if steps else self.valves.DEFAULT_STEPS], as [qwen_camera_studio]
    passes it on. *)
Definition studio_steps (valves : Valves) (steps : Z) : Z :=
  if (steps =? 0)%Z then DEFAULT_STEPS valves else steps.

(** The payload [execute_camera_edit] posts to [/api/v1/camera-edit]. *)
Definition studio_payload (valves : Valves)
    (img_base64 camera_preset lighting additional_prompt : string) (steps : Z)
    : list (string * value) :=
  [("image", VStr img_base64);
   ("camera_preset", VStr camera_preset);
   ("lighting", VStr lighting);
   ("additional_prompt", VStr additional_prompt);
   ("steps", VInt steps);
   ("use_lightning", VBool (USE_LIGHTNING valves))].

(** ** A reference runtime

    An executable stand-in for Pillow: an image file is a mode tag followed
    by the samples, and the PNG writer accepts the modes [L] and [RGB] and
    refuses the others, as Pillow's refuses an image in mode [CMYK]. *)

Record raster : Type := mkRaster {
  mode : string;
  samples : bytes;
}.

Definition raster_open (data : bytes) : string + raster :=
  match data with
  | "L"%char :: px => inr (mkRaster "L" px)
  | "R"%char :: px => inr (mkRaster "RGB" px)
  | "C"%char :: px => inr (mkRaster "CMYK" px)
  | _ => inl "cannot identify image file"
  end.

Definition raster_save_PNG (image : raster) : string + bytes :=
  if String.eqb (mode image) "L" then inr ("L"%char :: samples image)
  else if String.eqb (mode image) "RGB" then inr ("R"%char :: samples image)
  else inl ("cannot write mode " +:+ mode image +:+ " as PNG").

Definition raster_str (v : value) : string :=
  match v with
  | VNone => "None"
  | VBool true => "True"
  | VBool false => "False"
  | VInt n => pretty n
  | VStr s => s
  | _ => "<" +:+ type_name v +:+ ">"
  end.

Definition raster_runtime : Runtime := {|
  Image := raster;
  Pixels := string * bytes;
  Image_open := raster_open;
  Image_save_PNG := raster_save_PNG;
  pixel_content := fun image => (mode image, samples image);
  builtin_str := raster_str;
|}.

(** Sample requests: an [RGB] file of two pixels and a [CMYK] file of one,
    both in base64, and the payload the endpoint tester posts. *)
Definition rgb_file_base64 : string := "UmFiY2RlZg==".

Definition tester_payload (camera_preset lighting : string) : list (string * value) :=
  [("image", VStr rgb_file_base64);
   ("camera_preset", VStr camera_preset);
   ("lighting", VStr lighting);
   ("additional_prompt", VStr "");
   ("steps", VInt 8);
   ("use_lightning", VBool true)].

(** Sample deployments: the service's defaults with or without storage
    credentials; a host that cannot reach the hub while its object storage
    answers every request; a host that downloads the weights but cannot
    hold them in memory; and a host whose object storage refuses every
    request. *)
Definition deployment (use_huggingface : bool) (access_key secret_key : string) : Config := {|
  USE_HUGGINGFACE := use_huggingface;
  HUGGINGFACE_MODEL_ID := "Qwen/Qwen2-VL-2B-Instruct";
  HF_TOKEN := "";
  MINIO_ENDPOINT := "localhost:9000";
  MINIO_ACCESS_KEY := access_key;
  MINIO_SECRET_KEY := secret_key;
  MINIO_BUCKET_NAME := "qwen-models";
  MINIO_SECURE := false;
|}.

Definition offline_host : World := {|
  Minio_init := fun _ _ _ _ => None;
  makedirs := fun _ => None;
  snapshot_download := fun _ _ _ => inl "Connection error";
  from_pretrained := fun _ _ => None;
  fget_object := fun _ _ _ _ => None;
|}.

Definition snapshot_path : string :=
  "/app/models/huggingface/models--Qwen--Qwen2-VL-2B-Instruct/snapshots/main".

Definition low_memory_host : World := {|
  Minio_init := fun _ _ _ _ => None;
  makedirs := fun _ => None;
  snapshot_download := fun _ _ _ => inr snapshot_path;
  from_pretrained := fun _ _ => Some "CUDA out of memory";
  fget_object := fun _ _ _ _ => None;
|}.

Definition storage_down_host : World := {|
  Minio_init := fun _ _ _ _ => None;
  makedirs := fun _ => None;
  snapshot_download := fun _ _ _ => inl "Connection error";
  from_pretrained := fun _ _ => None;
  fget_object := fun _ _ _ _ => Some (S3Error "NoSuchKey");
|}.

(** A host whose model volume is read-only: no directory can be made. *)
Definition read_only_host : World := {|
  Minio_init := fun _ _ _ _ => None;
  makedirs := fun path => Some ("[Errno 30] Read-only file system: '" +:+ path +:+ "'");
  snapshot_download := fun _ _ _ => inr snapshot_path;
  from_pretrained := fun _ _ => None;
  fget_object := fun _ _ _ _ => None;
|}.

(** The client the sample deployments build from their credentials. *)
Definition storage_client : Minio := mkMinio "localhost:9000" "minio" "secret" false.

(** ** Vocabulary of the statements *)

(** A field of a response's JSON object. *)
Definition response_field (response : Response) (key : string) : value :=
  match body response with
  | VDict d => dict_get d key VNone
  | _ => VNone
  end.

(** The parsed body has an [image] field that is present and non-empty. *)
Definition has_image (parsed : value) : bool :=
  match parsed with
  | VDict d => truthy (dict_get d "image" VNone)
  | _ => false
  end.

(** The [image] field holds a valid image: non-empty base64 text of a file
    the codec decodes and writes back as PNG. *)
Definition valid_image `{rt : Runtime} (image_base64 : value) : Prop :=
  truthy image_base64 = true ∧
  ∃ image_data image output,
    b64decode image_base64 = Return image_data ∧
    Image_open image_data = inr image ∧
    Image_save_PNG image = inr output.

(** The placeholder inference both edit handlers run on the [image] field:
    decode the text, open the image, write it as PNG, encode the file. *)
Definition reencode `{rt : Runtime} (image_base64 : value) : result bytes :=
  image_data ← b64decode image_base64;
  image ← lift (Image_open image_data);
  lift (Image_save_PNG image).


(** The exception is of a class no [except] clause of the handlers names. *)
Definition unnamed_class (e : exn) : Prop := ∀ msg, e ≠ JSONDecodeError msg.

(** An exception the call raises is of no named class. *)
Definition raises_unnamed {A : Type} (r : result A) : Prop :=
  ∀ e, r = Raise e → ∃ msg, e = Exception msg.

(** The shape of a [try] block of the edit handlers, by the outcome of
    [json.loads]: its exception passes through, a value that is not an
    object has no [get], an object without a truthy [image] is answered
    400, and any other object is answered 200 unless a later step raises. *)
Definition try_block_shape (attempt : result value → result Response) : Prop :=
  ∀ loaded : result value,
    match loaded with
    | Raise e => attempt loaded = Raise e
    | Return (VDict d) =>
        if truthy (dict_get d "image" VNone) then
          (∃ r, attempt loaded = Return r ∧ status_code r = 200%Z) ∨
          (∃ msg, attempt loaded = Raise (Exception msg))
        else
          attempt loaded =
            Return (mkResponse 400 (error_body "Missing image data") json_headers)
    | Return v =>
        attempt loaded =
          Raise (Exception ("'" +:+ type_name v +:+ "' object has no attribute 'get'"))
    end.

(** The error contract of an edit handler, [attempt] being its [try] block. *)
Definition error_contract
    (attempt : result value → result Response) (handler : result value → Response) : Prop :=
  ∀ loaded : result value,
    (status_code (handler loaded) = 400%Z ↔
       (∃ msg, loaded = Raise (JSONDecodeError msg)) ∨
       (∃ d, loaded = Return (VDict d) ∧ truthy (dict_get d "image" VNone) = false)) ∧
    (∀ msg, loaded = Raise (JSONDecodeError msg) →
       handler loaded = mkResponse 400 (error_body "Invalid JSON") json_headers) ∧
    (∀ d, loaded = Return (VDict d) → truthy (dict_get d "image" VNone) = false →
       handler loaded = mkResponse 400 (error_body "Missing image data") json_headers) ∧
    (∀ v, loaded = Return v → (∀ d, v ≠ VDict d) →
       handler loaded =
         mkResponse 500
           (error_body ("'" +:+ type_name v +:+ "' object has no attribute 'get'"))
           json_headers) ∧
    (∀ e, attempt loaded = Raise e → unnamed_class e →
       handler loaded = mkResponse 500 (error_body (str_exn e)) json_headers) ∧
    (status_code (handler loaded) = 500%Z ↔ ∃ e, attempt loaded = Raise e ∧ unnamed_class e) ∧
    (status_code (handler loaded) = 200%Z ↔ ∃ r, attempt loaded = Return r ∧ status_code r = 200%Z).

(** The record [load_models] logs when it turns to the object storage. *)
Definition fallback_line : level * string := (INFO, "Loading models from MINIO S3...").

(** The run attempted the object-storage fallback. *)
Definition fallback_attempted (s : State) : Prop := fallback_line ∈ log s.

(** The record [load_models] logs when no storage client exists. *)
Definition no_storage_warning : level * string :=
  (WARNING, "Neither Hugging Face nor MINIO configured. Models not loaded.").

(** The hub routine reports failure: it returns [False]. *)
Definition hub_load_failed (cfg : Config) (w : World) : Prop :=
  ∀ s, (load_models_from_huggingface cfg w s).1 = Return false.

(** The [dict] that stands for a model resolved to a path only. *)
Definition path_only (model_path : string) : qwen :=
  QDict [("path", VStr model_path); ("loaded", VBool false)].

(** A field of [qwen_image_edit] in the models listing. *)
Definition model_info_field (cfg : Config) (s : State) (key : string) : value :=
  match response_field (list_models cfg s) "qwen_image_edit" with
  | VDict model_info => dict_get model_info key VNone
  | _ => VNone
  end.

#[global] Instance level_eq_dec : EqDecision level.
Proof. solve_decision. Defined.

(** Whether the fallback record is in the log, as a boolean observation. *)
Definition attempted (s : State) : bool := bool_decide (fallback_line ∈ log s).

(** The computation leaves an observation of the state as it found it. *)
Definition keeps {A B : Type} (obs : State → B) (m : Prov A) : Prop :=
  ∀ s, obs (m s).2 = obs s.

(** The base model's directory, which [load_models_from_minio] tests, and
    the weight file it downloads into it. *)
Definition model_dir : string := path_join MODEL_CACHE_DIR "qwen-image-edit".
Definition model_file : string := path_join model_dir "model.safetensors".

(** The computation returns from every state: it never raises. *)
Definition returns {A : Type} (m : Prov A) : Prop :=
  ∀ s, ∃ a, (m s).1 = Return a.

(** When the computation returns, the record is the last one it logged. *)
Definition logs_last (entry : level * string) (m : Prov unit) : Prop :=
  ∀ s, (m s).1 = Return () → ∃ before, log (m s).2 = (before ++ [entry])%list.

(** The response is one of the three the handlers document: JSON headers,
    and either status 200 with an [image] in base64 and no [error], or
    status 400 or 500 with a body that holds the [error] alone. *)
Definition well_formed (response : Response) : Prop :=
  headers response = json_headers ∧
  ((status_code response = 200%Z ∧
    (∃ output, response_field response "image" = VStr (b64encode output)) ∧
    response_field response "error" = VNone) ∨
   ((status_code response = 400%Z ∨ status_code response = 500%Z) ∧
    ∃ msg, body response = error_body msg)).

(** The presets of the UI tool that the service's table does not hold
    (lines 71-75 of the tool). *)
Definition rotation_presets : list string :=
  ["Rotate 45° Left"; "Rotate 45° Right"; "Rotate 90° Left"; "Rotate 90° Right";
   "Rotate 180°"].

(** The [available] LoRAs of the models listing. *)
Definition listed_loras (cfg : Config) (s : State) : value :=
  match response_field (list_models cfg s) "loras" with
  | VDict d => dict_get d "available" VNone
  | _ => VNone
  end.

(** The directories the provisioning routines make outside any [try]. *)
Definition cache_directories : list string :=
  [HUGGINGFACE_CACHE_DIR; MODEL_CACHE_DIR; LORA_DIR].

(** The record [startup] logs last. *)
Definition started_line : level * string := (INFO, "Qwen API service started").

(** The exception is [os.makedirs] refusing one of the cache directories. *)
Definition makedirs_refusal (w : World) (e : exn) : Prop :=
  ∃ path msg, path ∈ cache_directories ∧ makedirs w path = Some msg ∧ e = Exception msg.

(** The computation raises nothing but such a refusal. *)
Definition aborts_on_makedirs {A : Type} (w : World) (m : Prov A) : Prop :=
  ∀ s e, (m s).1 = Raise e → makedirs_refusal w e.

(** * Properties *)

(** ** Base64 *)

Module Base64_facts.

Local Open Scope N_scope.









End Base64_facts.

Import Base64_facts.

(** ** Strings *)

Lemma append_nil_r (s : string) : s +:+ "" = s.
Proof.
  induction s as [|c s IH]; [reflexivity|].
  change (String c (s +:+ "") = String c s). by rewrite IH.
Qed.

Lemma append_assoc (a b c : string) : (a +:+ b) +:+ c = a +:+ b +:+ c.
Proof.
  induction a as [|x a IH]; [reflexivity|].
  change (String x ((a +:+ b) +:+ c) = String x (a +:+ b +:+ c)). by rewrite IH.
Qed.

Lemma eqb_empty (s : string) : String.eqb s "" = true ↔ s = "".
Proof. apply String.eqb_eq. Qed.

(** ** Preset registry and prompt assembly *)

(** C1: a camera-preset name absent from the camera table resolves to the
    name itself, verbatim; a lighting-preset name absent from the lighting
    table resolves to the empty string. *)
Theorem preset_miss_policy (name : string) :
  (camera_presets !! name = None → camera_instruction (VStr name) = Return (AStr name)) ∧
  (lighting_presets !! name = None → lighting_instruction (VStr name) = Return (AStr "")).
Proof.
  split; intros Hmiss.
  - unfold camera_instruction. cbn. by rewrite Hmiss.
  - unfold lighting_instruction. cbn. by rewrite Hmiss.
Qed.

(** "My Custom Shot" is in neither table. *)
Lemma preset_miss_policy_witness :
  camera_presets !! "My Custom Shot" = None ∧
  lighting_presets !! "My Custom Shot" = None ∧
  camera_instruction (VStr "My Custom Shot") = Return (AStr "My Custom Shot") ∧
  lighting_instruction (VStr "My Custom Shot") = Return (AStr "").
Proof.
  assert (Hc : camera_presets !! "My Custom Shot" = None) by (vm_compute; reflexivity).
  assert (Hl : lighting_presets !! "My Custom Shot" = None) by (vm_compute; reflexivity).
  refine (conj Hc (conj Hl (conj _ _))).
  - exact (proj1 (preset_miss_policy "My Custom Shot") Hc).
  - exact (proj2 (preset_miss_policy "My Custom Shot") Hl).
Defined.

(** A name of the table resolves to its fragment, in both tables. *)
Lemma preset_hit (name fragment : string) :
  (camera_presets !! name = Some fragment →
     camera_instruction (VStr name) = Return (AStr fragment)) ∧
  (lighting_presets !! name = Some fragment →
     lighting_instruction (VStr name) = Return (AStr fragment)).
Proof.
  split; intros Hhit.
  - unfold camera_instruction. cbn. by rewrite Hhit.
  - unfold lighting_instruction. cbn. by rewrite Hhit.
Qed.

(** C2: the prompt is the camera instruction, then [", "] and the lighting
    instruction exactly when that is non-empty, then [", "] and the
    additional text exactly when that is non-empty, in this order. *)
Theorem prompt_assembly `{rt : Runtime} (camera lighting additional : string) :
  full_prompt (AStr camera) (AStr lighting) (VStr additional) =
    Return (AStr (camera
                  +:+ (if String.eqb lighting "" then "" else ", " +:+ lighting)
                  +:+ (if String.eqb additional "" then "" else ", " +:+ additional))) ∧
  full_prompt (AStr "A") (AStr "B") (VStr "C") = Return (AStr "A, B, C") ∧
  full_prompt (AStr "A") (AStr "") (VStr "C") = Return (AStr "A, C") ∧
  full_prompt (AStr "A") (AStr "") (VStr "") = Return (AStr "A").
Proof.
  split; [|repeat split].
  unfold full_prompt. cbn.
  destruct (String.eqb lighting "") eqn:El, (String.eqb additional "") eqn:Ea; cbn.
  - by rewrite append_nil_r.
  - reflexivity.
  - by rewrite append_nil_r.
  - by rewrite append_assoc.
Qed.

(** ** The edit handlers *)

(** The contract follows from the shape of the [try] block and the two
    [except] clauses. *)
Lemma error_contract_of_shape
    (attempt : result value → result Response) (handler : result value → Response) :
  (∀ loaded, handler loaded = handle (attempt loaded)) →
  try_block_shape attempt →
  error_contract attempt handler.
Proof.
  intros Hhandler Hshape loaded.
  specialize (Hshape loaded). rewrite Hhandler.
  unfold unnamed_class.
  destruct loaded as [[a|l|d]|e].
  - rewrite Hshape. cbn. split_and!; naive_solver congruence.
  - rewrite Hshape. cbn. split_and!; naive_solver congruence.
  - destruct (truthy (dict_get d "image" VNone)) eqn:Himage.
    + destruct Hshape as [(r & -> & Hr) | (msg & ->)]; cbn.
      * rewrite Hr. split_and!; naive_solver congruence.
      * split_and!; naive_solver congruence.
    + rewrite Hshape. cbn. split_and!; naive_solver congruence.
  - rewrite Hshape. destruct e as [msg|msg|msg]; cbn; split_and!; naive_solver congruence.
Qed.

Section Handlers.
Context `{rt : Runtime}.

Lemma raises_unnamed_bind {A B : Type} (m : result A) (f : A → result B) :
  raises_unnamed m → (∀ a, raises_unnamed (f a)) → raises_unnamed (m ≫= f).
Proof.
  intros Hm Hf e. destruct m as [a|e']; cbn; [apply Hf|].
  intros [= ->]. by apply Hm.
Qed.

Lemma raises_unnamed_ret {A : Type} (a : A) : raises_unnamed (Return a).
Proof. intros e [=]. Qed.

Lemma raises_unnamed_lift {A : Type} (r : string + A) : raises_unnamed (lift r).
Proof. destruct r; intros e [=]; eauto. Qed.

Lemma raises_unnamed_b64decode (v : value) : raises_unnamed (b64decode v).
Proof.
  destruct v as [[| | | |text]| |]; cbn; try (intros e [=]; by eauto).
  destruct (all_ascii text); [apply raises_unnamed_lift | intros e [=]; eauto].
Qed.

Lemma raises_unnamed_get (v : value) (key : string) (default : value) :
  raises_unnamed (get v key default).
Proof. destruct v as [a| |]; intros e [=]; eauto. Qed.

Lemma raises_unnamed_hash (v : value) : raises_unnamed (hash v).
Proof. destruct v as [a| |]; intros e [=]; eauto. Qed.

Lemma raises_unnamed_iadd_str (lhs : atom) (rhs : string) : raises_unnamed (iadd_str lhs rhs).
Proof. destruct lhs; intros e [=]; eauto. Qed.

Lemma raises_unnamed_reencode (v : value) : raises_unnamed (reencode v).
Proof.
  unfold reencode.
  apply raises_unnamed_bind; [apply raises_unnamed_b64decode|]; intros data.
  apply raises_unnamed_bind; [apply raises_unnamed_lift|]; intros image.
  apply raises_unnamed_lift.
Qed.

Lemma raises_unnamed_camera_instruction (v : value) : raises_unnamed (camera_instruction v).
Proof.
  apply raises_unnamed_bind; [apply raises_unnamed_hash|].
  intros a. apply raises_unnamed_ret.
Qed.

Lemma raises_unnamed_lighting_instruction (v : value) :
  raises_unnamed (lighting_instruction v).
Proof.
  apply raises_unnamed_bind; [apply raises_unnamed_hash|].
  intros a. apply raises_unnamed_ret.
Qed.

Lemma raises_unnamed_full_prompt (c l : atom) (a : value) : raises_unnamed (full_prompt c l a).
Proof.
  unfold full_prompt.
  apply raises_unnamed_bind.
  { destruct (atom_truthy l); [apply raises_unnamed_iadd_str | apply raises_unnamed_ret]. }
  intros p. apply raises_unnamed_bind; [|intros q; apply raises_unnamed_ret].
  destruct (truthy a); [apply raises_unnamed_iadd_str | apply raises_unnamed_ret].
Qed.

(** [edit_image] on a JSON object. *)
Lemma edit_image_try_dict (d : list (string * value)) :
  edit_image_try (Return (VDict d)) =
    if truthy (dict_get d "image" VNone) then
      output ← reencode (dict_get d "image" VNone);
      mret (mkResponse 200
              (VDict [("image", VStr (b64encode output));
                      ("prompt", dict_get d "prompt" (VStr ""));
                      ("steps", dict_get d "steps" (VInt 8));
                      ("lightning", dict_get d "use_lightning" (VBool true))])
              json_headers)
    else mret (mkResponse 400 (error_body "Missing image data") json_headers).
Proof.
  unfold edit_image_try, reencode. cbn.
  destruct (truthy (dict_get d "image" VNone)); [|reflexivity]. cbn.
  destruct (b64decode _) as [data|e]; [|reflexivity]. cbn.
  destruct (Image_open data) as [msg|image]; [reflexivity|]. cbn.
  destruct (Image_save_PNG image) as [msg|output]; reflexivity.
Qed.

(** [camera_edit] on a JSON object. *)
Lemma camera_edit_try_dict (d : list (string * value)) :
  camera_edit_try (Return (VDict d)) =
    if truthy (dict_get d "image" VNone) then
      camera ← camera_instruction (dict_get d "camera_preset" (VStr "Front View"));
      lighting ← lighting_instruction (dict_get d "lighting" (VStr "Cinematic"));
      prompt ← full_prompt camera lighting (dict_get d "additional_prompt" (VStr ""));
      output ← reencode (dict_get d "image" VNone);
      mret (mkResponse 200
              (VDict [("image", VStr (b64encode output));
                      ("camera_preset", dict_get d "camera_preset" (VStr "Front View"));
                      ("lighting", dict_get d "lighting" (VStr "Cinematic"));
                      ("prompt", Atom prompt);
                      ("steps", dict_get d "steps" (VInt 8));
                      ("lightning", dict_get d "use_lightning" (VBool true))])
              json_headers)
    else mret (mkResponse 400 (error_body "Missing image data") json_headers).
Proof.
  unfold camera_edit_try, reencode. cbn.
  destruct (truthy (dict_get d "image" VNone)); [|reflexivity]. cbn.
  destruct (camera_instruction _) as [camera|e]; [|reflexivity]. cbn.
  destruct (lighting_instruction _) as [lighting|e]; [|reflexivity]. cbn.
  destruct (full_prompt _ _ _) as [prompt|e]; [|reflexivity]. cbn.
  destruct (b64decode _) as [data|e]; [|reflexivity]. cbn.
  destruct (Image_open data) as [msg|image]; [reflexivity|]. cbn.
  destruct (Image_save_PNG image) as [msg|output]; reflexivity.
Qed.

(** What the [try] block of [edit_image] does, by input. *)
Lemma edit_image_try_shape : try_block_shape edit_image_try.
Proof.
  intros [[a|l|d]|e]; try reflexivity.
  rewrite edit_image_try_dict.
  destruct (truthy (dict_get d "image" VNone)) eqn:Himage; [|reflexivity].
  pose proof (raises_unnamed_reencode (dict_get d "image" VNone)) as Hre.
  destruct (reencode _) as [output|e]; cbn; [left; eauto|].
  right. destruct (Hre e eq_refl) as [msg ->]. eauto.
Qed.

(** What the [try] block of [camera_edit] does, by input. *)
Lemma camera_edit_try_shape : try_block_shape camera_edit_try.
Proof.
  intros [[a|l|d]|e]; try reflexivity.
  rewrite camera_edit_try_dict.
  destruct (truthy (dict_get d "image" VNone)) eqn:Himage; [|reflexivity].
  pose proof (raises_unnamed_camera_instruction
                (dict_get d "camera_preset" (VStr "Front View"))) as Hc.
  destruct (camera_instruction _) as [camera|e]; cbn;
    [|right; destruct (Hc e eq_refl) as [msg ->]; eauto].
  pose proof (raises_unnamed_lighting_instruction
                (dict_get d "lighting" (VStr "Cinematic"))) as Hl.
  destruct (lighting_instruction _) as [lighting|e]; cbn;
    [|right; destruct (Hl e eq_refl) as [msg ->]; eauto].
  pose proof (raises_unnamed_full_prompt camera lighting
                (dict_get d "additional_prompt" (VStr ""))) as Hp.
  destruct (full_prompt _ _ _) as [prompt|e]; cbn;
    [|right; destruct (Hp e eq_refl) as [msg ->]; eauto].
  pose proof (raises_unnamed_reencode (dict_get d "image" VNone)) as Hre.
  destruct (reencode _) as [output|e]; cbn; [left; eauto|].
  right. destruct (Hre e eq_refl) as [msg ->]. eauto.
Qed.

Lemma valid_image_reencode (v : value) :
  valid_image v → truthy v = true ∧ ∃ output, reencode v = Return output.
Proof.
  intros (Htruthy & data & image & output & Hdecode & Hopen & Hsave).
  split; [done|]. exists output.
  unfold reencode. rewrite Hdecode. cbn. rewrite Hopen. cbn. by rewrite Hsave.
Qed.


(** C6: a 200 response of [camera_edit] echoes the preset names as read
    from the request (with their defaults), not the resolved fragments,
    and its [prompt] is the prompt assembled from the resolved fragments
    and the additional prompt. *)
Theorem camera_edit_echo (loaded : result value) :
  status_code (camera_edit loaded) = 200%Z →
  ∃ d camera lighting prompt,
    loaded = Return (VDict d) ∧
    response_field (camera_edit loaded) "camera_preset"
      = dict_get d "camera_preset" (VStr "Front View") ∧
    response_field (camera_edit loaded) "lighting"
      = dict_get d "lighting" (VStr "Cinematic") ∧
    camera_instruction (dict_get d "camera_preset" (VStr "Front View")) = Return camera ∧
    lighting_instruction (dict_get d "lighting" (VStr "Cinematic")) = Return lighting ∧
    full_prompt camera lighting (dict_get d "additional_prompt" (VStr "")) = Return prompt ∧
    response_field (camera_edit loaded) "prompt" = Atom prompt.
Proof.
  intros H200.
  pose proof (camera_edit_try_shape loaded) as Hshape.
  unfold camera_edit in *.
  destruct loaded as [[a|l|d]|e].
  1,2: by rewrite Hshape in H200.
  2: { rewrite Hshape in H200. by destruct e. }
  clear Hshape. exists d. revert H200. rewrite camera_edit_try_dict.
  destruct (truthy (dict_get d "image" VNone)); [|done].
  destruct (camera_instruction _) as [camera|e] eqn:Hcamera; cbn; [|by destruct e].
  destruct (lighting_instruction _) as [lighting|e] eqn:Hlighting; cbn; [|by destruct e].
  destruct (full_prompt _ _ _) as [prompt|e] eqn:Hprompt; cbn; [|by destruct e].
  destruct (reencode _) as [output|e]; cbn; [|by destruct e].
  intros _. exists camera, lighting, prompt. split_and!; done.
Qed.

(** A request with a valid image whose names resolve to the given
    fragments is answered 200 with the prompt assembled from them. *)
Lemma camera_edit_prompt (d : list (string * value)) (camera lighting prompt : atom) :
  valid_image (dict_get d "image" VNone) →
  camera_instruction (dict_get d "camera_preset" (VStr "Front View")) = Return camera →
  lighting_instruction (dict_get d "lighting" (VStr "Cinematic")) = Return lighting →
  full_prompt camera lighting (dict_get d "additional_prompt" (VStr "")) = Return prompt →
  status_code (camera_edit (Return (VDict d))) = 200%Z ∧
  response_field (camera_edit (Return (VDict d))) "prompt" = Atom prompt.
Proof.
  intros Hvalid Hcamera Hlighting Hprompt.
  apply valid_image_reencode in Hvalid as (Htruthy & output & Hreencode).
  unfold camera_edit.
  rewrite camera_edit_try_dict, Htruthy, Hcamera. cbn.
  rewrite Hlighting. cbn. rewrite Hprompt. cbn. rewrite Hreencode. done.
Qed.

(** C7: with camera preset "Front View", lighting "Cinematic", an empty
    additional prompt and a valid image, the response's [prompt] is the
    front-view fragment followed by the cinematic fragment. *)
Theorem front_view_cinematic_prompt (d : list (string * value)) :
  dict_get d "camera_preset" (VStr "Front View") = VStr "Front View" →
  dict_get d "lighting" (VStr "Cinematic") = VStr "Cinematic" →
  dict_get d "additional_prompt" (VStr "") = VStr "" →
  valid_image (dict_get d "image" VNone) →
  status_code (camera_edit (Return (VDict d))) = 200%Z ∧
  response_field (camera_edit (Return (VDict d))) "prompt" =
    VStr "正面视角, front view, facing camera directly, cinematic lighting, dramatic shadows".
Proof.
  intros Hcamera Hlighting Hadditional Hvalid.
  apply (camera_edit_prompt d
           (AStr "正面视角, front view, facing camera directly")
           (AStr "cinematic lighting, dramatic shadows")); [done|..].
  - rewrite Hcamera. vm_compute. reflexivity.
  - rewrite Hlighting. vm_compute. reflexivity.
  - rewrite Hadditional. reflexivity.
Qed.

(** C8: with the unrecognised camera preset "My Custom Shot", lighting
    "None", an empty additional prompt and a valid image, the response's
    [prompt] is "My Custom Shot" exactly. *)
Theorem custom_shot_prompt (d : list (string * value)) :
  dict_get d "camera_preset" (VStr "Front View") = VStr "My Custom Shot" →
  dict_get d "lighting" (VStr "Cinematic") = VStr "None" →
  dict_get d "additional_prompt" (VStr "") = VStr "" →
  valid_image (dict_get d "image" VNone) →
  status_code (camera_edit (Return (VDict d))) = 200%Z ∧
  response_field (camera_edit (Return (VDict d))) "prompt" = VStr "My Custom Shot".
Proof.
  intros Hcamera Hlighting Hadditional Hvalid.
  apply (camera_edit_prompt d (AStr "My Custom Shot") (AStr "")); [done|..].
  - rewrite Hcamera. vm_compute. reflexivity.
  - rewrite Hlighting. vm_compute. reflexivity.
  - rewrite Hadditional. reflexivity.
Qed.

(** C3, as the code has it: for both edit endpoints the status is 400
    exactly when [json.loads] raised [JSONDecodeError] (body
    [{"error": "Invalid JSON"}]) or returned an object whose [image] is
    absent or falsy (body [{"error": "Missing image data"}]); a parsed
    body that is not an object is answered 500, like every other
    exception, with [error] set to the exception's message. *)
Theorem edit_error_contract :
  error_contract edit_image_try edit_image ∧ error_contract camera_edit_try camera_edit.
Proof.
  split; apply error_contract_of_shape;
    auto using edit_image_try_shape, camera_edit_try_shape.
Qed.

End Handlers.

(** ** The start-up run: what each routine leaves untouched *)

Section Frames.
Context {B : Type} (obs : State → B).

Lemma keeps_ret {A : Type} (a : A) : keeps obs (mret a : Prov A).
Proof. intros s. reflexivity. Qed.

Lemma keeps_raise {A : Type} (e : exn) : keeps obs (raise e : Prov A).
Proof. intros s. reflexivity. Qed.

Lemma keeps_bind {A C : Type} (m : Prov A) (f : A → Prov C) :
  keeps obs m → (∀ a, keeps obs (f a)) → keeps obs (m ≫= f).
Proof.
  intros Hm Hf s. unfold mbind, prov_bind.
  specialize (Hm s). destruct (m s) as [[a|e] s']; cbn in *; [|done].
  by rewrite Hf.
Qed.

Lemma keeps_try_except {A : Type} (m : Prov A) (handler : exn → Prov A) :
  keeps obs m → (∀ e, keeps obs (handler e)) → keeps obs (try_except m handler).
Proof.
  intros Hm Hh s. unfold try_except.
  specialize (Hm s). destruct (m s) as [[a|e] s']; cbn in *; [done|].
  by rewrite Hh.
Qed.

Lemma keeps_for_each {A : Type} (xs : list A) (body : A → Prov unit) :
  (∀ x, keeps obs (body x)) → keeps obs (for_each xs body).
Proof.
  intros Hbody. induction xs as [|x xs IH]; cbn [for_each].
  - apply keeps_ret.
  - apply keeps_bind; [apply Hbody | intros _; apply IH].
Qed.

End Frames.

Lemma attempted_logger (lvl : level) (msg : string) :
  (lvl, msg) ≠ fallback_line → keeps attempted (logger lvl msg).
Proof.
  intros Hne s. unfold attempted, logger. cbn.
  apply bool_decide_ext. rewrite elem_of_app, list_elem_of_singleton. naive_solver.
Qed.

Lemma fallback_attempted_spec (s : State) : fallback_attempted s ↔ attempted s = true.
Proof. unfold attempted. by rewrite bool_decide_eq_true. Qed.

(** The record differs from the fallback record in its level or its text. *)
Ltac other_record :=
  let Heq := fresh in
  intros Heq; vm_compute in Heq; discriminate Heq.

(** Frame goals follow the structure of the routine. *)
Ltac frame_step :=
  first
    [ apply keeps_ret
    | apply keeps_raise
    | apply keeps_bind; [|intros ?]
    | apply keeps_try_except; [|intros ?]
    | apply keeps_for_each; intros ?
    | apply attempted_logger; other_record
    | match goal with
      | |- keeps _ (match ?x with _ => _ end) => destruct x
      end
    | by intros ? ].

Ltac frame := repeat frame_step.

Section Provisioning.
Context (cfg : Config) (w : World).

Lemma os_makedirs_frame (path : string) :
  keeps minio_client (os_makedirs w path) ∧
  keeps qwen_model (os_makedirs w path) ∧
  keeps attempted (os_makedirs w path).
Proof. unfold os_makedirs. split_and!; frame. Qed.

Lemma download_from_minio_frame (bucket_name object_name file_path : string) :
  keeps minio_client (download_from_minio w bucket_name object_name file_path) ∧
  keeps qwen_model (download_from_minio w bucket_name object_name file_path) ∧
  keeps attempted (download_from_minio w bucket_name object_name file_path).
Proof.
  pose proof (os_makedirs_frame (dirname file_path)) as (? & ? & ?).
  unfold download_from_minio. split_and!; frame.
Qed.

Lemma load_models_from_minio_frame :
  keeps minio_client (load_models_from_minio cfg w) ∧
  keeps qwen_model (load_models_from_minio cfg w) ∧
  keeps attempted (load_models_from_minio cfg w).
Proof.
  pose proof os_makedirs_frame as Hmk.
  pose proof download_from_minio_frame as Hdl.
  unfold load_models_from_minio. split_and!; frame; try apply Hmk; try apply Hdl.
Qed.

Lemma load_models_from_huggingface_frame :
  keeps minio_client (load_models_from_huggingface cfg w) ∧
  keeps attempted (load_models_from_huggingface cfg w).
Proof.
  pose proof os_makedirs_frame as Hmk.
  unfold load_models_from_huggingface. split_and!; frame; try apply Hmk.
Qed.

Lemma init_minio_client_frame :
  keeps qwen_model (init_minio_client cfg w) ∧
  keeps attempted (init_minio_client cfg w).
Proof. unfold init_minio_client. split_and!; frame. Qed.

(** The hub routine's answer depends on the collaborators only: it raises
    when its cache directory cannot be made, and otherwise returns whether
    the download succeeded. *)
Lemma hub_result (s : State) :
  (load_models_from_huggingface cfg w s).1 =
    match makedirs w HUGGINGFACE_CACHE_DIR with
    | Some msg => Raise (Exception msg)
    | None =>
        Return (match snapshot_download w (HUGGINGFACE_MODEL_ID cfg)
                        HUGGINGFACE_CACHE_DIR (token cfg) with
                | inr _ => true
                | inl _ => false
                end)
    end.
Proof.
  unfold load_models_from_huggingface, os_makedirs, try_except, mbind, prov_bind.
  destruct (makedirs w HUGGINGFACE_CACHE_DIR) as [msg|]; [reflexivity|].
  cbn. destruct (snapshot_download w _ _ _) as [msg|model_path]; [reflexivity|].
  cbn. destruct (from_pretrained w model_path _) as [msg|]; reflexivity.
Qed.

Lemma hub_load_failed_iff :
  hub_load_failed cfg w ↔
    makedirs w HUGGINGFACE_CACHE_DIR = None ∧
    ∃ msg, snapshot_download w (HUGGINGFACE_MODEL_ID cfg) HUGGINGFACE_CACHE_DIR (token cfg)
           = inl msg.
Proof.
  unfold hub_load_failed. split.
  - intros Hfail. specialize (Hfail (mkState None QNone [] [] ∅)).
    rewrite hub_result in Hfail.
    destruct (makedirs w _); [done|]. destruct (snapshot_download w _ _ _); [eauto|done].
  - intros (Hmk & msg & Hdl) s. by rewrite hub_result, Hmk, Hdl.
Qed.

(** A hub routine that reports failure has not touched the model. *)
Lemma hub_failure_keeps_model (s : State) :
  (load_models_from_huggingface cfg w s).1 = Return false →
  qwen_model (load_models_from_huggingface cfg w s).2 = qwen_model s.
Proof.
  unfold load_models_from_huggingface, os_makedirs, try_except, mbind, prov_bind.
  destruct (makedirs w HUGGINGFACE_CACHE_DIR) as [msg|]; [done|].
  cbn. destruct (snapshot_download w _ _ _) as [msg|model_path]; [done|].
  cbn. destruct (from_pretrained w model_path _) as [msg|]; done.
Qed.

Lemma init_minio_client_spec (s : State) :
  (init_minio_client cfg w s).1 = Return () ∧
  minio_client (init_minio_client cfg w s).2 =
    if negb (String.eqb (MINIO_ACCESS_KEY cfg) "") && negb (String.eqb (MINIO_SECRET_KEY cfg) "")
    then match Minio_init w (MINIO_ENDPOINT cfg) (MINIO_ACCESS_KEY cfg) (MINIO_SECRET_KEY cfg)
                 (MINIO_SECURE cfg) with
         | None => Some (mkMinio (MINIO_ENDPOINT cfg) (MINIO_ACCESS_KEY cfg)
                                 (MINIO_SECRET_KEY cfg) (MINIO_SECURE cfg))
         | Some _ => None
         end
    else None.
Proof.
  unfold init_minio_client, try_except, mbind, prov_bind. cbn.
  destruct (negb _ && negb _); [|done].
  destruct (Minio_init w _ _ _ _); done.
Qed.

Lemma fallback_to_minio_spec (s : State) :
  attempted s = false →
  let out := fallback_to_minio cfg w s in
  minio_client out.2 = minio_client s ∧
  qwen_model out.2 = qwen_model s ∧
  (attempted out.2 = true ↔ is_Some (minio_client s)) ∧
  (minio_client s = None →
     out.1 = Return () ∧
     log out.2 = (log s ++ [(WARNING,
       "Neither Hugging Face nor MINIO configured. Models not loaded.")])%list).
Proof.
  intros Hs. cbv zeta. unfold fallback_to_minio, get_minio_client, mbind, prov_bind. cbn.
  destruct (minio_client s) as [client|] eqn:Hclient.
  - destruct load_models_from_minio_frame as (Hc & Hq & Ha).
    set (s1 := mkState _ _ _ (log s ++ _)%list _).
    assert (Hs1 : attempted s1 = true).
    { unfold attempted, s1. cbn. apply bool_decide_eq_true.
      apply elem_of_app. right. by apply list_elem_of_singleton. }
    assert (Hc1 : minio_client s1 = Some client) by done.
    assert (Hq1 : qwen_model s1 = qwen_model s) by done.
    clearbody s1.
    specialize (Hc s1). specialize (Hq s1). specialize (Ha s1).
    destruct (load_models_from_minio cfg w s1) as [[[]|e] s2]; cbn in *.
    + split_and!; [congruence | congruence | |done].
      split; [eauto | intros _].
      rewrite Hs1 in Ha. unfold attempted in *. cbn.
      apply bool_decide_eq_true in Ha. apply bool_decide_eq_true.
      apply elem_of_app. by left.
    + split_and!; [congruence | congruence | | done].
      split; [eauto | congruence].
  - cbn. split_and!; [done | done | | done].
    unfold attempted in *. cbn. rewrite bool_decide_eq_true, elem_of_app.
    rewrite bool_decide_eq_false in Hs. rewrite list_elem_of_singleton.
    split; [intros [?|[=]]; done | by intros [? ?]].
Qed.

(** What [load_models] does to the observations, from a state whose log
    has no fallback record yet. *)
Lemma load_models_spec (s : State) :
  attempted s = false →
  minio_client (load_models cfg w s).2 = minio_client s ∧
  (attempted (load_models cfg w s).2 = true ↔
     is_Some (minio_client s) ∧ (USE_HUGGINGFACE cfg = false ∨ hub_load_failed cfg w)) ∧
  (attempted (load_models cfg w s).2 = true →
     qwen_model (load_models cfg w s).2 = qwen_model s) ∧
  ((USE_HUGGINGFACE cfg = false ∨ hub_load_failed cfg w) → minio_client s = None →
     (load_models cfg w s).1 = Return () ∧
     (∃ before, log (load_models cfg w s).2 = (before ++ [no_storage_warning])%list) ∧
     qwen_model (load_models cfg w s).2 = qwen_model s).
Proof.
  intros Hs. unfold load_models.
  destruct (USE_HUGGINGFACE cfg) eqn:Hflag.
  - unfold mbind, prov_bind. cbn.
    set (s1 := mkState _ _ _ (log s ++ _)%list _).
    assert (Hs1 : attempted s1 = false).
    { transitivity (attempted s); [|done].
      exact (attempted_logger INFO "Attempting to load models from Hugging Face Hub..."
               ltac:(other_record) s). }
    assert (Hc1 : minio_client s1 = minio_client s) by done.
    assert (Hq1 : qwen_model s1 = qwen_model s) by done.
    clearbody s1.
    destruct load_models_from_huggingface_frame as (Hc & Ha).
    specialize (Hc s1). specialize (Ha s1).
    pose proof (hub_result s1) as Hresult.
    pose proof (hub_failure_keeps_model s1) as Hmodel.
    pose proof hub_load_failed_iff as Hfailed.
    destruct (load_models_from_huggingface cfg w s1) as [[[]|e] s2]; cbn in *.
    + assert (Hnot : ¬ hub_load_failed cfg w).
      { rewrite Hfailed. intros (Hmk & msg & Hdl). rewrite Hmk, Hdl in Hresult. done. }
      assert (Hout : attempted
          (mkState (minio_client s2) (qwen_model s2) (lora_models s2)
             (log s2 ++ [(INFO, "✓ Models loaded from Hugging Face")]) (fs s2)) = false).
      { transitivity (attempted s2); [|congruence].
        exact (attempted_logger INFO "✓ Models loaded from Hugging Face"
                 ltac:(other_record) s2). }
      split_and!; [congruence | | congruence | naive_solver].
      rewrite Hout. naive_solver.
    + assert (Hyes : hub_load_failed cfg w).
      { rewrite Hfailed. destruct (makedirs w _); [done|].
        destruct (snapshot_download w _ _ _); [eauto|done]. }
      set (s3 := mkState _ _ _ (log s2 ++ _)%list _).
      assert (Hs3 : attempted s3 = false).
      { transitivity (attempted s2); [|congruence].
        exact (attempted_logger WARNING "Hugging Face download failed, falling back to MINIO..."
                 ltac:(other_record) s2). }
      assert (Hc3 : minio_client s3 = minio_client s) by (cbn; congruence).
      assert (Hq3 : qwen_model s3 = qwen_model s) by (cbn; rewrite Hmodel; done).
      clearbody s3.
      destruct (fallback_to_minio_spec s3 Hs3) as (Hfc & Hfq & Hfa & Hfw).
      split_and!; [congruence | | congruence |].
      * rewrite Hfa, Hc3. naive_solver.
      * intros _ Hnone. rewrite <- Hc3 in Hnone.
        destruct (Hfw Hnone) as (Hret & Hlog). split_and!; [done | eauto | congruence].
    + assert (Hnot : ¬ hub_load_failed cfg w).
      { rewrite Hfailed. intros (Hmk & msg & Hdl). rewrite Hmk, Hdl in Hresult. done. }
      split_and!; [congruence | | congruence | naive_solver].
      rewrite Ha, Hs1. naive_solver.
  - destruct (fallback_to_minio_spec s Hs) as (Hfc & Hfq & Hfa & Hfw).
    split_and!; [done | | done |].
    + rewrite Hfa. naive_solver.
    + intros _ Hnone. destruct (Hfw Hnone) as (Hret & Hlog). split_and!; [done | eauto | done].
Qed.

(** [startup] wraps [load_models] in two records that are not the
    fallback record. *)
Lemma startup_spec (s : State) :
  attempted s = false →
  minio_client (startup cfg w s).2 = minio_client s ∧
  (attempted (startup cfg w s).2 = true ↔
     is_Some (minio_client s) ∧ (USE_HUGGINGFACE cfg = false ∨ hub_load_failed cfg w)) ∧
  (attempted (startup cfg w s).2 = true →
     qwen_model (startup cfg w s).2 = qwen_model s) ∧
  ((USE_HUGGINGFACE cfg = false ∨ hub_load_failed cfg w) → minio_client s = None →
     (startup cfg w s).1 = Return () ∧
     no_storage_warning ∈ log (startup cfg w s).2 ∧
     qwen_model (startup cfg w s).2 = qwen_model s).
Proof.
  intros Hs. unfold startup, mbind, prov_bind. cbn.
  set (s1 := mkState _ _ _ (log s ++ _)%list _).
  assert (Hs1 : attempted s1 = false).
  { transitivity (attempted s); [|done].
    exact (attempted_logger INFO "Starting Qwen API service..." ltac:(other_record) s). }
  assert (Hc1 : minio_client s1 = minio_client s) by done.
  assert (Hq1 : qwen_model s1 = qwen_model s) by done.
  clearbody s1.
  destruct (load_models_spec s1 Hs1) as (Hc & Ha & Hq & Hw).
  rewrite Hc1 in *. rewrite Hq1 in *. clear Hc1 Hq1 Hs1.
  destruct (load_models cfg w s1) as [[[]|e] s2]; cbn in *.
  - assert (Hout : attempted
        (mkState (minio_client s2) (qwen_model s2) (lora_models s2)
           (log s2 ++ [(INFO, "Qwen API service started")]) (fs s2)) = attempted s2).
    { exact (attempted_logger INFO "Qwen API service started" ltac:(other_record) s2). }
    split_and!; [done | by rewrite Hout | by rewrite Hout |].
    intros Hcase Hnone.
    destruct (Hw Hcase Hnone) as (_ & (before & ->) & Hmodel).
    split_and!; [done | | done].
    rewrite !elem_of_app, list_elem_of_singleton. eauto.
  - split_and!; [done..|].
    intros Hcase Hnone. by destruct (Hw Hcase Hnone) as ([=] & _).
Qed.

(** The whole run, from an empty log. *)
Lemma boot_spec (disk : gset string) :
  let client :=
    if negb (String.eqb (MINIO_ACCESS_KEY cfg) "") && negb (String.eqb (MINIO_SECRET_KEY cfg) "")
    then match Minio_init w (MINIO_ENDPOINT cfg) (MINIO_ACCESS_KEY cfg) (MINIO_SECRET_KEY cfg)
                 (MINIO_SECURE cfg) with
         | None => Some (mkMinio (MINIO_ENDPOINT cfg) (MINIO_ACCESS_KEY cfg)
                                 (MINIO_SECRET_KEY cfg) (MINIO_SECURE cfg))
         | Some _ => None
         end
    else None in
  minio_client (boot cfg w disk).2 = client ∧
  (fallback_attempted (boot cfg w disk).2 ↔
     is_Some client ∧ (USE_HUGGINGFACE cfg = false ∨ hub_load_failed cfg w)) ∧
  (fallback_attempted (boot cfg w disk).2 → qwen_model (boot cfg w disk).2 = QNone) ∧
  ((USE_HUGGINGFACE cfg = false ∨ hub_load_failed cfg w) → client = None →
     (boot cfg w disk).1 = Return () ∧
     no_storage_warning ∈ log (boot cfg w disk).2 ∧
     qwen_model (boot cfg w disk).2 = QNone).
Proof.
  intros client. unfold boot, mbind, prov_bind.
  set (s0 := mkState None QNone [] [] disk).
  destruct (init_minio_client_spec s0) as (Hret & Hclient).
  destruct init_minio_client_frame as (Hq & Ha).
  specialize (Hq s0). specialize (Ha s0).
  fold client in Hclient.
  destruct (init_minio_client cfg w s0) as [r s1]; cbn in *. subst r.
  assert (Hs1 : attempted s1 = false) by (rewrite Ha; reflexivity).
  destruct (startup_spec s1 Hs1) as (Hc & Hat & Hmodel & Hw).
  rewrite Hclient, Hq in *. rewrite !fallback_attempted_spec.
  split_and!; done.
Qed.

End Provisioning.


Section Degraded.
Context (cfg : Config) (w : World).

Lemma unset_model_is_not_loaded (s : State) :
  qwen_model s = QNone → model_info_field cfg s "loaded" = VBool false.
Proof.
  intros Hnone. unfold model_info_field, list_models, response_field. cbn.
  by rewrite Hnone.
Qed.

Lemma path_only_listing (s : State) (model_path : string) :
  qwen_model s = path_only model_path →
  model_info_field cfg s "loaded" = VBool false ∧
  model_info_field cfg s "path" = VStr model_path.
Proof.
  intros Hmodel. unfold model_info_field, list_models, response_field. cbn.
  rewrite Hmodel. split; reflexivity.
Qed.

(** C9: when the hub download succeeds and the in-memory load raises, the
    hub routine returns [True] with the model set to the path-only
    [dict]; it logs the failure as a warning and nothing as an error; and
    a run that selects the hub ends there, without the fallback. *)
Theorem path_only_on_memory_failure (s : State) (model_path msg : string) :
  makedirs w HUGGINGFACE_CACHE_DIR = None →
  snapshot_download w (HUGGINGFACE_MODEL_ID cfg) HUGGINGFACE_CACHE_DIR (token cfg)
    = inr model_path →
  from_pretrained w model_path (token cfg) = Some msg →
  (load_models_from_huggingface cfg w s).1 = Return true ∧
  qwen_model (load_models_from_huggingface cfg w s).2 = path_only model_path ∧
  log (load_models_from_huggingface cfg w s).2 =
    (log s ++
     [(INFO, "Downloading Qwen model from Hugging Face: " +:+ HUGGINGFACE_MODEL_ID cfg);
      (INFO, "Model downloaded to: " +:+ model_path);
      (WARNING, "Could not load model into memory: " +:+ msg
                +:+ ". Will use model path for inference.")])%list ∧
  (USE_HUGGINGFACE cfg = true → ∀ disk,
     (boot cfg w disk).1 = Return () ∧
     qwen_model (boot cfg w disk).2 = path_only model_path ∧
     ¬ fallback_attempted (boot cfg w disk).2 ∧
     model_info_field cfg (boot cfg w disk).2 "loaded" = VBool false ∧
     model_info_field cfg (boot cfg w disk).2 "path" = VStr model_path).
Proof.
  intros Hmk Hdl Hload.
  assert (Hhub : ∀ s',
    (load_models_from_huggingface cfg w s').1 = Return true ∧
    qwen_model (load_models_from_huggingface cfg w s').2 = path_only model_path ∧
    log (load_models_from_huggingface cfg w s').2 =
      (log s' ++
       [(INFO, "Downloading Qwen model from Hugging Face: " +:+ HUGGINGFACE_MODEL_ID cfg);
        (INFO, "Model downloaded to: " +:+ model_path);
        (WARNING, "Could not load model into memory: " +:+ msg
                  +:+ ". Will use model path for inference.")])%list).
  { intros s'.
    unfold load_models_from_huggingface, os_makedirs, try_except, mbind, prov_bind.
    rewrite Hmk. cbn. rewrite Hdl. cbn. rewrite Hload. cbn.
    split_and!; [done..|]. by rewrite <- !app_assoc. }
  destruct (Hhub s) as (Hret & Hmodel & Hlog).
  split_and!; [done..|].
  intros Hflag disk.
  assert (Hfinal : (boot cfg w disk).1 = Return () ∧
                   qwen_model (boot cfg w disk).2 = path_only model_path).
  { unfold boot, mbind, prov_bind.
    destruct (init_minio_client_spec cfg w (mkState None QNone [] [] disk)) as (Hinit & _).
    destruct (init_minio_client cfg w _) as [r s1]; cbn in Hinit; subst r.
    unfold startup, load_models, mbind, prov_bind. rewrite Hflag. cbn.
    set (s2 := mkState _ _ _ _ _).
    destruct (Hhub s2) as (Hret2 & Hmodel2 & _).
    destruct (load_models_from_huggingface cfg w s2) as [r s3]; cbn in *; subst r.
    done. }
  destruct Hfinal as (Hboot & Hfinal).
  destruct (path_only_listing _ _ Hfinal) as (Hloaded & Hpath).
  split_and!; [done | done | | done | done].
  destruct (boot_spec cfg w disk) as (_ & Hattempt & _).
  rewrite Hattempt, hub_load_failed_iff. rewrite Hflag, Hdl.
  intros (_ & [[=] | (_ & msg' & [=])]).
Qed.

(** C10: the object-storage routine never assigns the model, so a run
    that attempted the fallback ends with the model unset and the models
    listing reports [loaded] as false, whatever the fetches did. *)
Theorem fallback_leaves_model_unset :
  (∀ s, qwen_model (load_models_from_minio cfg w s).2 = qwen_model s) ∧
  (∀ disk,
     fallback_attempted (boot cfg w disk).2 →
     qwen_model (boot cfg w disk).2 = QNone ∧
     model_info_field cfg (boot cfg w disk).2 "loaded" = VBool false).
Proof.
  split.
  - apply load_models_from_minio_frame.
  - intros disk Hattempt.
    destruct (boot_spec cfg w disk) as (_ & _ & Hmodel & _).
    split; [by apply Hmodel|]. apply unset_model_is_not_loaded. by apply Hmodel.
Qed.

End Degraded.

(** ** The reference runtime at work *)


Lemma rgb_file_valid : valid_image (rt := raster_runtime) (VStr rgb_file_base64).
Proof.
  split; [reflexivity|].
  exists (list_ascii_of_string "Rabcdef"),
         (mkRaster "RGB" (list_ascii_of_string "abcdef")),
         (list_ascii_of_string "Rabcdef").
  split_and!; vm_compute; reflexivity.
Qed.

(** The three error answers on the reference runtime: no image, malformed
    JSON, and bytes that are no image. *)
Lemma edit_error_contract_witness :
  edit_image (rt := raster_runtime) (Return (VDict [("prompt", VStr "brighter")]))
    = mkResponse 400 (error_body "Missing image data") json_headers ∧
  camera_edit (rt := raster_runtime)
      (Raise (JSONDecodeError "Expecting value: line 1 column 1 (char 0)"))
    = mkResponse 400 (error_body "Invalid JSON") json_headers ∧
  edit_image (rt := raster_runtime) (Return (VDict [("image", VStr "%%%")]))
    = mkResponse 500 (error_body "cannot identify image file") json_headers.
Proof.
  destruct (edit_error_contract (rt := raster_runtime)) as [Hedit Hcamera].
  split_and!.
  - apply (proj1 (proj2 (proj2 (Hedit _))) [("prompt", VStr "brighter")]); reflexivity.
  - apply (proj1 (proj2 (Hcamera _)) "Expecting value: line 1 column 1 (char 0)").
    reflexivity.
  - apply (proj1 (proj2 (proj2 (proj2 (proj2 (Hedit _)))))
             (Exception "cannot identify image file")); [reflexivity | done].
Defined.

(** C3, against the claim as stated: a body that parses to a JSON array has
    no non-empty [image] field, yet both endpoints answer 500, not 400. *)
Lemma non_object_body_is_500 :
  has_image (VList []) = false ∧
  edit_image (rt := raster_runtime) (Return (VList []))
    = mkResponse 500 (error_body "'list' object has no attribute 'get'") json_headers ∧
  camera_edit (rt := raster_runtime) (Return (VList []))
    = mkResponse 500 (error_body "'list' object has no attribute 'get'") json_headers.
Proof. split_and!; reflexivity. Qed.



(** The tester's payload: the names are echoed, the prompt is resolved. *)
Lemma camera_edit_echo_witness :
  let loaded := Return (VDict (tester_payload "Front View" "Cinematic")) in
  status_code (camera_edit (rt := raster_runtime) loaded) = 200%Z ∧
  response_field (camera_edit (rt := raster_runtime) loaded) "camera_preset"
    = VStr "Front View" ∧
  response_field (camera_edit (rt := raster_runtime) loaded) "lighting" = VStr "Cinematic" ∧
  response_field (camera_edit (rt := raster_runtime) loaded) "prompt"
    = VStr "正面视角, front view, facing camera directly, cinematic lighting, dramatic shadows".
Proof.
  intros loaded.
  assert (H200 : status_code (camera_edit (rt := raster_runtime) loaded) = 200%Z)
    by (vm_compute; reflexivity).
  destruct (camera_edit_echo (rt := raster_runtime) loaded H200)
    as (d & camera & lighting & prompt & [= <-] & Hc & Hl & Hci & Hli & Hp & Hprompt).
  split_and!; [done | by rewrite Hc | by rewrite Hl |].
  rewrite Hprompt. vm_compute in Hci, Hli. injection Hci as <-. injection Hli as <-.
  vm_compute in Hp. by injection Hp as <-.
Defined.

(** The tester's payload with its default presets. *)
Lemma front_view_cinematic_prompt_witness :
  let d := tester_payload "Front View" "Cinematic" in
  valid_image (rt := raster_runtime) (dict_get d "image" VNone) ∧
  status_code (camera_edit (rt := raster_runtime) (Return (VDict d))) = 200%Z ∧
  response_field (camera_edit (rt := raster_runtime) (Return (VDict d))) "prompt" =
    VStr "正面视角, front view, facing camera directly, cinematic lighting, dramatic shadows".
Proof.
  intros d. split; [exact rgb_file_valid|].
  apply (front_view_cinematic_prompt (rt := raster_runtime) d);
    [reflexivity.. | exact rgb_file_valid].
Defined.

(** The tester's payload with a free-form camera text and no lighting. *)
Lemma custom_shot_prompt_witness :
  let d := tester_payload "My Custom Shot" "None" in
  valid_image (rt := raster_runtime) (dict_get d "image" VNone) ∧
  status_code (camera_edit (rt := raster_runtime) (Return (VDict d))) = 200%Z ∧
  response_field (camera_edit (rt := raster_runtime) (Return (VDict d))) "prompt" =
    VStr "My Custom Shot".
Proof.
  intros d. split; [exact rgb_file_valid|].
  apply (custom_shot_prompt (rt := raster_runtime) d);
    [reflexivity.. | exact rgb_file_valid].
Defined.

(** ** Sample deployments at work *)



(** A host that downloads the snapshot and fails to load it. *)
Lemma path_only_on_memory_failure_witness :
  let cfg := deployment true "" "" in
  let s := mkState None QNone [] [] ∅ in
  makedirs low_memory_host HUGGINGFACE_CACHE_DIR = None ∧
  snapshot_download low_memory_host (HUGGINGFACE_MODEL_ID cfg) HUGGINGFACE_CACHE_DIR
    (token cfg) = inr snapshot_path ∧
  from_pretrained low_memory_host snapshot_path (token cfg) = Some "CUDA out of memory" ∧
  (load_models_from_huggingface cfg low_memory_host s).1 = Return true ∧
  qwen_model (load_models_from_huggingface cfg low_memory_host s).2
    = path_only snapshot_path ∧
  (boot cfg low_memory_host ∅).1 = Return () ∧
  qwen_model (boot cfg low_memory_host ∅).2 = path_only snapshot_path ∧
  ¬ fallback_attempted (boot cfg low_memory_host ∅).2 ∧
  model_info_field cfg (boot cfg low_memory_host ∅).2 "loaded" = VBool false ∧
  model_info_field cfg (boot cfg low_memory_host ∅).2 "path" = VStr snapshot_path.
Proof.
  intros cfg s.
  destruct (path_only_on_memory_failure cfg low_memory_host s snapshot_path
              "CUDA out of memory" eq_refl eq_refl eq_refl)
    as (Hret & Hmodel & _ & Hboot).
  destruct (Hboot eq_refl ∅) as (Hrun & Hfinal & Hnot & Hloaded & Hpath).
  split_and!; done.
Defined.

(** Every fetch succeeds, the three files are on disk, and the model is
    still unset. *)
Lemma fallback_leaves_model_unset_witness :
  let cfg := deployment false "minio" "secret" in
  let final := (boot cfg offline_host ∅).2 in
  fallback_attempted final ∧
  "/app/models/qwen-image-edit/model.safetensors" ∈ fs final ∧
  "/app/models/loras/Qwen-Edit-2509-Multiple-angles.safetensors" ∈ fs final ∧
  "/app/models/loras/Qwen-Image-Edit-Lightning-8steps-V1.0.safetensors" ∈ fs final ∧
  qwen_model final = QNone ∧
  model_info_field cfg final "loaded" = VBool false.
Proof.
  intros cfg final.
  assert (Hattempt : fallback_attempted final).
  { apply fallback_attempted_spec. vm_compute. reflexivity. }
  destruct (fallback_leaves_model_unset cfg offline_host) as (_ & Hunset).
  destruct (Hunset ∅ Hattempt) as (Hmodel & Hloaded).
  split_and!; try done; apply bool_decide_unpack; vm_compute; exact I.
Defined.

(** ** Best-effort fetches *)

Section Returns.

Lemma returns_ret {A : Type} (a : A) : returns (mret a : Prov A).
Proof. intros s. by exists a. Qed.

Lemma returns_bind {A C : Type} (m : Prov A) (f : A → Prov C) :
  returns m → (∀ a, returns (f a)) → returns (m ≫= f).
Proof.
  intros Hm Hf s. unfold mbind, prov_bind.
  destruct (Hm s) as [a Ha]. destruct (m s) as [r s']; cbn in Ha; subst r.
  apply Hf.
Qed.

Lemma returns_try_except {A : Type} (m : Prov A) (handler : exn → Prov A) :
  (∀ e, returns (handler e)) → returns (try_except m handler).
Proof.
  intros Hh s. unfold try_except.
  destruct (m s) as [[a|e] s']; [by exists a | apply Hh].
Qed.

Lemma returns_for_each {A : Type} (xs : list A) (body : A → Prov unit) :
  (∀ x, returns (body x)) → returns (for_each xs body).
Proof.
  intros Hbody. induction xs as [|x xs IH]; cbn [for_each].
  - apply returns_ret.
  - apply returns_bind; [apply Hbody | intros _; apply IH].
Qed.

Lemma returns_logger (lvl : level) (msg : string) : returns (logger lvl msg).
Proof. intros s. by exists (). Qed.

Lemma logs_last_bind {A : Type} (entry : level * string) (m : Prov A) (f : A → Prov unit) :
  (∀ a, logs_last entry (f a)) → logs_last entry (m ≫= f).
Proof.
  intros Hf s. unfold mbind, prov_bind.
  destruct (m s) as [[a|e] s']; [apply Hf | done].
Qed.

Lemma logs_last_logger (lvl : level) (msg : string) : logs_last (lvl, msg) (logger lvl msg).
Proof. intros s _. by exists (log s). Qed.

Context (cfg : Config) (w : World).

(** A fetch answers [True] or [False]; it never raises. *)
Lemma download_from_minio_returns (bucket_name object_name file_path : string) :
  returns (download_from_minio w bucket_name object_name file_path).
Proof.
  unfold download_from_minio.
  apply returns_bind; [intros s; by eexists|]. intros [client|].
  - apply returns_try_except. intros [msg|msg|msg];
      (apply returns_bind; [apply returns_logger | intros _; apply returns_ret]).
  - apply returns_bind; [apply returns_logger | intros _; apply returns_ret].
Qed.

(** X1: once its two directories are made, the object-storage routine
    returns whatever the fetches answer, and the last record it logs is
    the closing one: a failed fetch aborts nothing. *)
Theorem storage_fetches_are_best_effort :
  makedirs w MODEL_CACHE_DIR = None →
  makedirs w LORA_DIR = None →
  returns (load_models_from_minio cfg w) ∧
  logs_last (INFO, "Models downloaded from MINIO successfully") (load_models_from_minio cfg w).
Proof.
  intros Hmodels Hloras. unfold load_models_from_minio, os_makedirs.
  rewrite Hmodels, Hloras. split.
  - repeat first
      [ apply returns_ret | apply returns_logger | apply download_from_minio_returns
      | apply returns_bind; [|intros ?]
      | apply returns_for_each; intros ?
      | match goal with |- returns (if ?b then _ else _) => destruct b end
      | (intros ?; by eexists) ].
  - repeat (apply logs_last_bind; intros ?). apply logs_last_logger.
Qed.

End Returns.

(** Every fetch is refused, each refusal is logged, and the run goes on to
    its closing record. *)
Lemma storage_fetches_are_best_effort_witness :
  let cfg := deployment false "minio" "secret" in
  let run := boot cfg storage_down_host ∅ in
  makedirs storage_down_host MODEL_CACHE_DIR = None ∧
  makedirs storage_down_host LORA_DIR = None ∧
  (∃ a, (load_models_from_minio cfg storage_down_host (mkState None QNone [] [] ∅)).1
        = Return a) ∧
  run.1 = Return () ∧
  (ERROR, "MINIO error downloading qwen-image-edit/model.safetensors: NoSuchKey") ∈ log run.2 ∧
  (INFO, "Models downloaded from MINIO successfully") ∈ log run.2.
Proof.
  intros cfg run.
  destruct (storage_fetches_are_best_effort cfg storage_down_host eq_refl eq_refl)
    as (Hreturns & _).
  split_and!; [done | done | apply Hreturns | reflexivity | |];
    apply (bool_decide_unpack _); vm_compute; exact I.
Defined.

(** ** No source configured *)

(** X2: with the hub deselected and a storage credential missing, the run
    returns after the warning with no model, and the models listing
    reports [loaded] as false. *)
Theorem unloaded_without_sources (cfg : Config) (w : World) (disk : gset string) :
  USE_HUGGINGFACE cfg = false →
  MINIO_ACCESS_KEY cfg = "" ∨ MINIO_SECRET_KEY cfg = "" →
  (boot cfg w disk).1 = Return () ∧
  no_storage_warning ∈ log (boot cfg w disk).2 ∧
  qwen_model (boot cfg w disk).2 = QNone ∧
  model_info_field cfg (boot cfg w disk).2 "loaded" = VBool false.
Proof.
  intros Hflag Hcredentials.
  destruct (boot_spec cfg w disk) as (_ & _ & _ & Hwarn).
  destruct Hwarn as (Hret & Hlog & Hmodel); [by left | |].
  - destruct Hcredentials as [-> | ->]; [done|].
    by destruct (negb (String.eqb (MINIO_ACCESS_KEY cfg) "")).
  - split_and!; [done..|]. by apply unset_model_is_not_loaded.
Qed.

(** The hub deselected and no credentials at all. *)
Lemma unloaded_without_sources_witness :
  let cfg := deployment false "" "" in
  (boot cfg offline_host ∅).1 = Return () ∧
  no_storage_warning ∈ log (boot cfg offline_host ∅).2 ∧
  qwen_model (boot cfg offline_host ∅).2 = QNone ∧
  model_info_field cfg (boot cfg offline_host ∅).2 "loaded" = VBool false.
Proof.
  intros cfg.
  exact (unloaded_without_sources cfg offline_host ∅ eq_refl (or_introl eq_refl)).
Defined.

(** ** The edit handlers on every input *)

Section Edit_handlers.
Context `{rt : Runtime}.

(** X3: the answer of [/api/v1/edit] to a JSON object depends on its
    [image] field alone: two bodies with the same [image] get the same
    status, the same [image] and the same [error], whatever their prompts.
    The other three fields are only echoed in a 200 response, with the
    defaults [""], [8] and [True] when absent. *)
Theorem edit_image_reads_image_only (d d' : list (string * value)) :
  dict_get d "image" VNone = dict_get d' "image" VNone →
  status_code (edit_image (Return (VDict d))) = status_code (edit_image (Return (VDict d'))) ∧
  response_field (edit_image (Return (VDict d))) "image"
    = response_field (edit_image (Return (VDict d'))) "image" ∧
  response_field (edit_image (Return (VDict d))) "error"
    = response_field (edit_image (Return (VDict d'))) "error" ∧
  (status_code (edit_image (Return (VDict d))) = 200%Z →
     response_field (edit_image (Return (VDict d))) "prompt" = dict_get d "prompt" (VStr "") ∧
     response_field (edit_image (Return (VDict d))) "steps" = dict_get d "steps" (VInt 8) ∧
     response_field (edit_image (Return (VDict d))) "lightning"
       = dict_get d "use_lightning" (VBool true)).
Proof.
  intros Himage. unfold edit_image. rewrite !edit_image_try_dict, <- Himage.
  destruct (truthy (dict_get d "image" VNone)); [|done].
  destruct (reencode _) as [output|e]; cbn; [done|].
  destruct e; done.
Qed.

(** The assembled prompt on three strings. *)
Lemma full_prompt_on_strings (camera lighting additional : string) :
  full_prompt (AStr camera) (AStr lighting) (VStr additional) =
    Return (AStr (camera
                  +:+ (if String.eqb lighting "" then "" else ", " +:+ lighting)
                  +:+ (if String.eqb additional "" then "" else ", " +:+ additional))).
Proof.
  unfold full_prompt. cbn.
  destruct (String.eqb lighting "") eqn:El, (String.eqb additional "") eqn:Ea; cbn.
  - by rewrite append_nil_r.
  - reflexivity.
  - by rewrite append_nil_r.
  - by rewrite append_assoc.
Qed.

(** X4: [camera_edit] builds the prompt before it touches the image. When
    the [image] field is truthy and resolving the presets or assembling
    the prompt raises, the response is 500 with that exception's message,
    whether or not the image would have decoded. *)
Theorem prompt_errors_come_before_the_image (d : list (string * value)) (e : exn) :
  truthy (dict_get d "image" VNone) = true →
  (camera ← camera_instruction (dict_get d "camera_preset" (VStr "Front View"));
   lighting ← lighting_instruction (dict_get d "lighting" (VStr "Cinematic"));
   full_prompt camera lighting (dict_get d "additional_prompt" (VStr ""))) = Raise e →
  camera_edit (Return (VDict d)) = mkResponse 500 (error_body (str_exn e)) json_headers.
Proof.
  intros Htruthy Hraise. unfold camera_edit.
  rewrite camera_edit_try_dict, Htruthy.
  pose proof (raises_unnamed_camera_instruction
                (dict_get d "camera_preset" (VStr "Front View"))) as Hc.
  destruct (camera_instruction _) as [camera|e1]; cbn in *.
  2: { injection Hraise as <-. by destruct (Hc e1 eq_refl) as [msg ->]. }
  pose proof (raises_unnamed_lighting_instruction
                (dict_get d "lighting" (VStr "Cinematic"))) as Hl.
  destruct (lighting_instruction _) as [lighting|e1]; cbn in *.
  2: { injection Hraise as <-. by destruct (Hl e1 eq_refl) as [msg ->]. }
  pose proof (raises_unnamed_full_prompt camera lighting
                (dict_get d "additional_prompt" (VStr ""))) as Hp.
  rewrite Hraise. cbn. by destruct (Hp e Hraise) as [msg ->].
Qed.

(** X5: whatever the request body, both edit handlers answer with JSON
    headers and one of two bodies: status 200 with an [image] that is
    base64 text and no [error], or status 400 or 500 with a body that
    is the [error] message alone. No exception leaves a handler. *)
Theorem edit_response_shape (loaded : result value) :
  well_formed (edit_image loaded) ∧ well_formed (camera_edit loaded).
Proof.
  assert (Herror : ∀ e, well_formed (handle (Raise e))).
  { intros [msg|msg|msg]; (split; [done|]); right; split; eauto. }
  assert (Hmissing :
            well_formed (mkResponse 400 (error_body "Missing image data") json_headers)).
  { split; [done|]. right. split; eauto. }
  unfold edit_image, camera_edit.
  destruct loaded as [[a|l|d]|e]; try (split; apply Herror).
  rewrite edit_image_try_dict, camera_edit_try_dict.
  destruct (truthy (dict_get d "image" VNone)); [|by split].
  split.
  - destruct (reencode _) as [output|e]; [|apply Herror].
    split; [done|]. left. split_and!; [done | by exists output | done].
  - destruct (camera_instruction _) as [camera|e]; [|apply Herror]. cbn.
    destruct (lighting_instruction _) as [lighting|e]; [|apply Herror]. cbn.
    destruct (full_prompt _ _ _) as [prompt|e]; [|apply Herror]. cbn.
    destruct (reencode _) as [output|e]; [|apply Herror].
    split; [done|]. left. split_and!; [done | by exists output | done].
Qed.


End Edit_handlers.

(** Two requests with the same image and different prompts. *)
Lemma edit_image_reads_image_only_witness :
  let d := generic_edit_payload rgb_file_base64 "make it night" in
  let d' := [("image", VStr rgb_file_base64)] in
  dict_get d "image" VNone = dict_get d' "image" VNone ∧
  status_code (edit_image (rt := raster_runtime) (Return (VDict d))) = 200%Z ∧
  response_field (edit_image (rt := raster_runtime) (Return (VDict d))) "image"
    = response_field (edit_image (rt := raster_runtime) (Return (VDict d'))) "image" ∧
  response_field (edit_image (rt := raster_runtime) (Return (VDict d))) "prompt"
    = VStr "make it night" ∧
  response_field (edit_image (rt := raster_runtime) (Return (VDict d'))) "prompt" = VStr "".
Proof.
  intros d d'.
  destruct (edit_image_reads_image_only (rt := raster_runtime) d d' eq_refl)
    as (_ & Himage & _ & Hecho).
  destruct (edit_image_reads_image_only (rt := raster_runtime) d' d eq_refl)
    as (_ & _ & _ & Hecho').
  split_and!; [reflexivity | reflexivity | exact Himage | |].
  - exact (proj1 (Hecho eq_refl)).
  - exact (proj1 (Hecho' eq_refl)).
Defined.

(** A camera preset that is a JSON array, beside an image that is not
    base64: the answer names the preset's fault. *)
Lemma prompt_errors_come_before_the_image_witness :
  let d := [("image", VStr "not base64 at all"); ("camera_preset", VList [])] in
  truthy (dict_get d "image" VNone) = true ∧
  camera_edit (rt := raster_runtime) (Return (VDict d))
    = mkResponse 500 (error_body "unhashable type: 'list'") json_headers.
Proof.
  intros d. split; [reflexivity|].
  exact (prompt_errors_come_before_the_image (rt := raster_runtime) d
           (Exception "unhashable type: 'list'") eq_refl eq_refl).
Defined.

(** ** The UI tool against the service *)

Lemma tool_lighting_table : tool_lighting_presets = lighting_presets.
Proof. reflexivity. Qed.

(** The service holds every camera preset of the tool but the rotations,
    with the tool's fragment. *)
Lemma tool_camera_table :
  map_Forall (fun name fragment =>
                camera_presets !! name =
                  if bool_decide (name ∈ rotation_presets) then None else Some fragment)
             tool_camera_presets.
Proof. apply (bool_decide_unpack _). vm_compute. exact I. Qed.

Section Studio.
Context `{rt : Runtime}.

(** X7: a request of the UI tool, served. For a camera preset and a
    lighting the tool offers and a valid image, the service answers 200;
    it echoes the preset; [steps] is the tool's argument, or the valve
    [DEFAULT_STEPS] when the argument is 0; [lightning] is the valve
    [USE_LIGHTNING]. The prompt starts with the fragment the tool holds
    for the preset, except for the five rotation presets, which the
    service's table lacks: for those it starts with the preset's name. *)
Theorem studio_request_is_served (valves : Valves)
    (img_base64 camera_preset lighting additional_prompt fragment light : string) (steps : Z) :
  tool_camera_presets !! camera_preset = Some fragment →
  tool_lighting_presets !! lighting = Some light →
  valid_image (VStr img_base64) →
  let response :=
    camera_edit (Return (VDict (studio_payload valves img_base64 camera_preset lighting
                                  additional_prompt (studio_steps valves steps)))) in
  status_code response = 200%Z ∧
  response_field response "prompt" =
    VStr ((if bool_decide (camera_preset ∈ rotation_presets) then camera_preset else fragment)
          +:+ (if String.eqb light "" then "" else ", " +:+ light)
          +:+ (if String.eqb additional_prompt "" then ""
               else ", " +:+ additional_prompt)) ∧
  response_field response "camera_preset" = VStr camera_preset ∧
  response_field response "steps"
    = VInt (if (steps =? 0)%Z then DEFAULT_STEPS valves else steps) ∧
  response_field response "lightning" = VBool (USE_LIGHTNING valves).
Proof.
  intros Hcamera Hlighting Hvalid response.
  pose proof (tool_camera_table camera_preset fragment Hcamera) as Hservice.
  rewrite tool_lighting_table in Hlighting.
  apply valid_image_reencode in Hvalid as (Htruthy & output & Hreencode).
  unfold response, camera_edit. rewrite camera_edit_try_dict.
  change (dict_get (studio_payload _ _ _ _ _ _) "image" VNone) with (VStr img_base64).
  change (dict_get (studio_payload _ _ _ _ _ _) "camera_preset" _) with (VStr camera_preset).
  change (dict_get (studio_payload _ _ _ _ _ _) "lighting" _) with (VStr lighting).
  change (dict_get (studio_payload _ _ _ _ _ _) "additional_prompt" _)
    with (VStr additional_prompt).
  change (dict_get (studio_payload _ _ _ _ _ _) "steps" _)
    with (VInt (studio_steps valves steps)).
  change (dict_get (studio_payload _ _ _ _ _ _) "use_lightning" _)
    with (VBool (USE_LIGHTNING valves)).
  rewrite Htruthy.
  assert (Hc : camera_instruction (VStr camera_preset) =
               Return (AStr (if bool_decide (camera_preset ∈ rotation_presets)
                             then camera_preset else fragment))).
  { unfold camera_instruction. cbn. rewrite Hservice. by destruct (bool_decide _). }
  assert (Hl : lighting_instruction (VStr lighting) = Return (AStr light)).
  { unfold lighting_instruction. cbn. by rewrite Hlighting. }
  rewrite Hc. cbn -[lighting_instruction full_prompt reencode].
  rewrite Hl. cbn -[full_prompt reencode].
  rewrite full_prompt_on_strings. cbn -[reencode].
  rewrite Hreencode. clear. repeat split.
Qed.

End Studio.

(** The tool's defaults with a rotation preset and no step count. *)
Lemma studio_request_is_served_witness :
  let response :=
    camera_edit (rt := raster_runtime)
      (Return (VDict (studio_payload default_valves rgb_file_base64 "Rotate 180°" "Neon" ""
                        (studio_steps default_valves 0)))) in
  tool_camera_presets !! "Rotate 180°"
    = Some "旋转180度, rotate camera 180 degrees, complete flip" ∧
  tool_lighting_presets !! "Neon" = Some "neon lighting, vibrant colors" ∧
  valid_image (rt := raster_runtime) (VStr rgb_file_base64) ∧
  status_code response = 200%Z ∧
  response_field response "prompt" = VStr "Rotate 180°, neon lighting, vibrant colors" ∧
  response_field response "steps" = VInt 8.
Proof.
  intros response.
  destruct (studio_request_is_served (rt := raster_runtime) default_valves rgb_file_base64
              "Rotate 180°" "Neon" ""
              "旋转180度, rotate camera 180 degrees, complete flip"
              "neon lighting, vibrant colors" 0 eq_refl eq_refl rgb_file_valid)
    as (Hstatus & Hprompt & _ & Hsteps & _).
  split_and!; [reflexivity | reflexivity | exact rgb_file_valid | exact Hstatus
              | exact Hprompt | exact Hsteps].
Defined.

(** ** What the fetches leave on disk *)


Lemma bool_decide_eq_iff (P Q : Prop) `{!Decision P, !Decision Q} :
  bool_decide P = bool_decide Q → (P ↔ Q).
Proof.
  intros Heq. rewrite <- (bool_decide_eq_true P), Heq. apply bool_decide_eq_true.
Qed.

Lemma keeps_create_path_other (target path : string) :
  path ≠ target → keeps (fun s => bool_decide (target ∈ fs s)) (create_path path).
Proof. intros Hne s. cbn. apply bool_decide_ext. set_solver. Qed.

(** Frame goals on the presence of one path. *)
Ltac disk_frame_step :=
  first
    [ apply keeps_ret
    | apply keeps_raise
    | apply keeps_bind; [|intros ?]
    | apply keeps_try_except; [|intros ?]
    | apply keeps_create_path_other; other_record
    | match goal with
      | |- keeps _ (match ?x with _ => _ end) => destruct x
      end
    | by intros ? ].

Section Disk.
Context (cfg : Config) (w : World).

(** The LoRA fetches and the closing record touch neither the base model's
    directory nor its weight file. *)
Lemma lora_fetches_keep (target : string) :
  target = model_dir ∨ target = model_file →
  keeps (fun s => bool_decide (target ∈ fs s))
    (for_each loras (fun lora_name =>
       let lora_path := path_join LORA_DIR lora_name in
       present ← os_path_exists lora_path;
       if negb present then
         logger INFO ("Downloading LoRA " +:+ lora_name +:+ " from MINIO...");;
         download_from_minio w (MINIO_BUCKET_NAME cfg) ("loras/" +:+ lora_name) lora_path;;
         mret ()
       else mret ());;
     logger INFO "Models downloaded from MINIO successfully").
Proof.
  intros [-> | ->]; unfold loras, download_from_minio, os_makedirs; cbn [for_each];
    repeat disk_frame_step.
Qed.

(** With the directory on disk, the routine does not fetch the base model. *)
Lemma model_directory_skips_the_fetch (s : State) :
  model_dir ∈ fs s →
  model_dir ∈ fs (load_models_from_minio cfg w s).2 ∧
  (model_file ∈ fs (load_models_from_minio cfg w s).2 ↔ model_file ∈ fs s).
Proof.
  intros Hdir.
  assert (Hkeep : ∀ target, target = model_dir ∨ target = model_file →
            ∀ s', target ∈ fs ((for_each loras (fun lora_name =>
               let lora_path := path_join LORA_DIR lora_name in
               present ← os_path_exists lora_path;
               if negb present then
                 logger INFO ("Downloading LoRA " +:+ lora_name +:+ " from MINIO...");;
                 download_from_minio w (MINIO_BUCKET_NAME cfg) ("loras/" +:+ lora_name)
                   lora_path;;
                 mret ()
               else mret ());;
             logger INFO "Models downloaded from MINIO successfully") s').2 ↔ target ∈ fs s').
  { intros target Htarget s'. apply (bool_decide_eq_iff _ _).
    apply (lora_fetches_keep target Htarget s'). }
  unfold load_models_from_minio.
  set (lora_part := for_each loras _ ≫= _) in *. clearbody lora_part.
  fold model_dir.
  unfold os_makedirs, os_path_exists, mbind, prov_bind.
  destruct (makedirs w MODEL_CACHE_DIR); [done|]. cbn -[model_dir model_file].
  assert (Hother : ∀ target : string,
            target = model_dir ∨ target = model_file →
            target ≠ MODEL_CACHE_DIR ∧ target ≠ LORA_DIR).
  { intros target [-> | ->]; split; intros H; vm_compute in H; discriminate H. }
  destruct (Hother model_file (or_intror eq_refl)) as (Hfm & Hfl).
  destruct (makedirs w LORA_DIR); cbn -[model_dir model_file].
  { rewrite !elem_of_union, !elem_of_singleton. naive_solver. }
  rewrite bool_decide_eq_true_2 by set_solver. cbn -[model_dir model_file].
  rewrite !Hkeep by eauto. cbn -[model_dir model_file].
  rewrite !elem_of_union, !elem_of_singleton. naive_solver.
Qed.

(** A refused fetch leaves the directory it made and no file. *)
Lemma download_from_minio_refused
    (bucket_name object_name file_path : string) (s : State) (client : Minio) (e : exn) :
  minio_client s = Some client →
  makedirs w (dirname file_path) = None →
  fget_object w client bucket_name object_name file_path = Some e →
  fs (download_from_minio w bucket_name object_name file_path s).2
    = {[dirname file_path]} ∪ fs s.
Proof.
  intros Hclient Hmk Hget.
  unfold download_from_minio, get_minio_client, os_makedirs, try_except, mbind, prov_bind.
  cbn. rewrite Hclient, Hmk. cbn. rewrite Hget. cbn. by destruct e.
Qed.

End Disk.

(** X9: a refused fetch of the base model is never retried. The routine
    tests the model's directory, which [download_from_minio] makes before
    it asks for the object: after a run in which [fget_object] raised, the
    directory is on disk and the weight file is not, and no later run of
    the routine, under any configuration and with any storage, puts the
    weight file on disk. *)
Theorem failed_model_fetch_is_not_retried
    (cfg : Config) (w : World) (s : State) (client : Minio) (e : exn) :
  minio_client s = Some client →
  model_dir ∉ fs s →
  model_file ∉ fs s →
  makedirs w MODEL_CACHE_DIR = None →
  makedirs w LORA_DIR = None →
  makedirs w model_dir = None →
  fget_object w client (MINIO_BUCKET_NAME cfg) "qwen-image-edit/model.safetensors" model_file
    = Some e →
  model_dir ∈ fs (load_models_from_minio cfg w s).2 ∧
  (model_file ∉ fs (load_models_from_minio cfg w s).2) ∧
  ∀ (cfg' : Config) (w' : World),
    model_file ∉
      fs (load_models_from_minio cfg' w' (load_models_from_minio cfg w s).2).2.
Proof.
  intros Hclient Hdir Hfile Hmodels Hloras Hmk Hget.
  assert (Hfirst : model_dir ∈ fs (load_models_from_minio cfg w s).2 ∧
                   model_file ∉ fs (load_models_from_minio cfg w s).2).
  { assert (Hkeep : ∀ target, target = model_dir ∨ target = model_file →
              ∀ s', target ∈ fs ((for_each loras (fun lora_name =>
                 let lora_path := path_join LORA_DIR lora_name in
                 present ← os_path_exists lora_path;
                 if negb present then
                   logger INFO ("Downloading LoRA " +:+ lora_name +:+ " from MINIO...");;
                   download_from_minio w (MINIO_BUCKET_NAME cfg) ("loras/" +:+ lora_name)
                     lora_path;;
                   mret ()
                 else mret ());;
               logger INFO "Models downloaded from MINIO successfully") s').2
              ↔ target ∈ fs s').
    { intros target Htarget s'. apply (bool_decide_eq_iff _ _).
      apply (lora_fetches_keep cfg w target Htarget s'). }
    assert (Hdirname : dirname model_file = model_dir) by (vm_compute; reflexivity).
    assert (Hne : model_dir ≠ MODEL_CACHE_DIR ∧ model_dir ≠ LORA_DIR ∧
                  model_file ≠ MODEL_CACHE_DIR ∧ model_file ≠ LORA_DIR ∧
                  model_file ≠ model_dir).
    { split_and!; intros H; vm_compute in H; discriminate H. }
    destruct Hne as (Hdm & Hdl & Hfm & Hfl & Hfd).
    unfold load_models_from_minio.
    set (lora_part := for_each loras _ ≫= _) in *. clearbody lora_part.
    fold model_dir. fold model_file.
    unfold os_makedirs, os_path_exists, mbind, prov_bind.
    rewrite Hmodels, Hloras. cbn -[model_dir model_file].
    rewrite bool_decide_eq_false_2
      by (rewrite !elem_of_union, !elem_of_singleton; naive_solver).
    cbn -[model_dir model_file].
    set (s3 := mkState _ _ _ _ _).
    pose proof (download_from_minio_refused w (MINIO_BUCKET_NAME cfg)
                  "qwen-image-edit/model.safetensors" model_file s3 client e
                  Hclient ltac:(by rewrite Hdirname) Hget) as Hfs.
    rewrite Hdirname in Hfs.
    destruct (download_from_minio w _ _ model_file s3) as [[fetched|e'] s4];
      cbn -[model_dir model_file] in *.
    - rewrite !Hkeep by eauto. rewrite Hfs. unfold s3. cbn -[model_dir model_file].
      rewrite !elem_of_union, !elem_of_singleton. naive_solver.
    - rewrite Hfs. unfold s3. cbn -[model_dir model_file].
      rewrite !elem_of_union, !elem_of_singleton. naive_solver. }
  destruct Hfirst as (Hdir1 & Hfile1). split_and!; [done..|].
  intros cfg' w'. by rewrite (proj2 (model_directory_skips_the_fetch cfg' w' _ Hdir1)).
Qed.

(** Storage refuses the base model on an empty disk; the second run is on a
    host whose storage would serve it. *)
Lemma failed_model_fetch_is_not_retried_witness :
  let cfg := deployment false "minio" "secret" in
  let s := mkState (Some storage_client) QNone [] [] ∅ in
  let after := (load_models_from_minio cfg storage_down_host s).2 in
  minio_client s = Some storage_client ∧
  fget_object storage_down_host storage_client (MINIO_BUCKET_NAME cfg)
    "qwen-image-edit/model.safetensors" model_file = Some (S3Error "NoSuchKey") ∧
  model_dir ∈ fs after ∧
  (model_file ∉ fs after) ∧
  model_file ∉ fs (load_models_from_minio cfg offline_host after).2.
Proof.
  intros cfg s after.
  destruct (failed_model_fetch_is_not_retried cfg storage_down_host s storage_client
              (S3Error "NoSuchKey") eq_refl (not_elem_of_empty _) (not_elem_of_empty _)
              eq_refl eq_refl eq_refl eq_refl) as (Hdir & Hfile & Hlater).
  split_and!; [reflexivity | reflexivity | exact Hdir | exact Hfile
              | exact (Hlater cfg offline_host)].
Defined.

(** ** The model start-up leaves *)

Section Terminal.
Context (cfg : Config) (w : World).

(** The model the hub routine leaves, given the one it found. *)
Lemma hub_model (s : State) :
  qwen_model (load_models_from_huggingface cfg w s).2 =
    match makedirs w HUGGINGFACE_CACHE_DIR with
    | Some _ => qwen_model s
    | None =>
        match snapshot_download w (HUGGINGFACE_MODEL_ID cfg) HUGGINGFACE_CACHE_DIR (token cfg) with
        | inl _ => qwen_model s
        | inr model_path =>
            match from_pretrained w model_path (token cfg) with
            | None => QAutoModel model_path
            | Some _ => path_only model_path
            end
        end
    end.
Proof.
  unfold load_models_from_huggingface, os_makedirs, try_except, mbind, prov_bind.
  destruct (makedirs w HUGGINGFACE_CACHE_DIR) as [msg|]; [reflexivity|].
  cbn. destruct (snapshot_download w _ _ _) as [msg|model_path]; [reflexivity|].
  cbn. destruct (from_pretrained w model_path _) as [msg|]; reflexivity.
Qed.

Lemma fallback_to_minio_keeps_model : keeps qwen_model (fallback_to_minio cfg w).
Proof.
  pose proof (load_models_from_minio_frame cfg w) as (_ & Hq & _).
  unfold fallback_to_minio. repeat first [apply Hq | frame_step].
Qed.

Lemma load_models_model (s : State) :
  qwen_model (load_models cfg w s).2 =
    if USE_HUGGINGFACE cfg
    then qwen_model (load_models_from_huggingface cfg w s).2
    else qwen_model s.
Proof.
  unfold load_models.
  destruct (USE_HUGGINGFACE cfg); [|exact (fallback_to_minio_keeps_model _)].
  unfold mbind, prov_bind. cbn.
  set (s1 := mkState _ _ _ (log s ++ _)%list _).
  assert (Hsame : qwen_model (load_models_from_huggingface cfg w s1).2
                  = qwen_model (load_models_from_huggingface cfg w s).2)
    by (rewrite !hub_model; reflexivity).
  rewrite <- Hsame. clearbody s1.
  destruct (load_models_from_huggingface cfg w s1) as [[[]|e] s2]; cbn; [done| |done].
  exact (fallback_to_minio_keeps_model _).
Qed.

Lemma boot_model (disk : gset string) :
  qwen_model (boot cfg w disk).2 =
    if USE_HUGGINGFACE cfg
    then qwen_model (load_models_from_huggingface cfg w (mkState None QNone [] [] disk)).2
    else QNone.
Proof.
  unfold boot, mbind, prov_bind.
  set (s0 := mkState None QNone [] [] disk).
  destruct (init_minio_client_spec cfg w s0) as (Hret & _).
  destruct (init_minio_client_frame cfg w) as (Hq & _). specialize (Hq s0).
  destruct (init_minio_client cfg w s0) as [r s1]; cbn in *. subst r.
  unfold startup, mbind, prov_bind. cbn.
  set (s2 := mkState _ _ _ (log s1 ++ _)%list _).
  pose proof (load_models_model s2) as Hmodel.
  assert (Hq2 : qwen_model s2 = QNone) by done.
  assert (Hsame : qwen_model (load_models_from_huggingface cfg w s2).2
                  = qwen_model (load_models_from_huggingface cfg w s0).2)
    by (rewrite !hub_model, Hq2; reflexivity).
  rewrite Hsame, Hq2 in Hmodel. clearbody s2.
  destruct (load_models cfg w s2) as [[[]|e] s3]; cbn in *; done.
Qed.

(** X10: the model the service holds after start-up is decided by the hub
    alone, whether start-up returned or raised and whatever the object
    storage did: with the flag off it is [None]; with the flag on it is
    the [AutoModel] object when the snapshot was downloaded and loaded,
    the path-only [dict] when it was downloaded and the load raised, and
    [None] when the cache directory or the download failed. The listing
    reports [loaded] as true exactly for the [AutoModel] object. *)
Theorem model_after_start_up (disk : gset string) :
  qwen_model (boot cfg w disk).2 =
    (if USE_HUGGINGFACE cfg then
       match makedirs w HUGGINGFACE_CACHE_DIR with
       | Some _ => QNone
       | None =>
           match snapshot_download w (HUGGINGFACE_MODEL_ID cfg) HUGGINGFACE_CACHE_DIR
                   (token cfg) with
           | inl _ => QNone
           | inr model_path =>
               match from_pretrained w model_path (token cfg) with
               | None => QAutoModel model_path
               | Some _ => path_only model_path
               end
           end
       end
     else QNone) ∧
  (model_info_field cfg (boot cfg w disk).2 "loaded" = VBool true ↔
     ∃ model_path, qwen_model (boot cfg w disk).2 = QAutoModel model_path).
Proof.
  pose proof (boot_model disk) as Hmodel. rewrite hub_model in Hmodel. cbn [qwen_model] in Hmodel.
  split; [exact Hmodel|].
  unfold model_info_field, list_models, response_field.
  set (final := (boot cfg w disk).2) in *. clearbody final. cbn.
  destruct (qwen_model final) as [|model_path|d] eqn:Hfinal; cbn.
  - split; [by destruct (USE_HUGGINGFACE cfg) | by intros [? [=]]].
  - split; [eauto | by destruct (USE_HUGGINGFACE cfg)].
  - assert (d = [("path", VStr (match d with (_, VStr p) :: _ => p | _ => "" end));
                 ("loaded", VBool false)]) as ->.
    { destruct (USE_HUGGINGFACE cfg); [|done].
      destruct (makedirs w _); [done|]. destruct (snapshot_download w _ _ _); [done|].
      destruct (from_pretrained w _ _); [|done]. by injection Hmodel as ->. }
    split; [by destruct (USE_HUGGINGFACE cfg) | by intros [? [=]]].
Qed.

End Terminal.

(** ** When start-up raises *)

Section Aborts.
Context (w : World).

Lemma aborts_returns {A : Type} (m : Prov A) : returns m → aborts_on_makedirs w m.
Proof. intros Hm s e He. destruct (Hm s) as [a Ha]. congruence. Qed.

Lemma aborts_bind {A C : Type} (m : Prov A) (f : A → Prov C) :
  aborts_on_makedirs w m → (∀ a, aborts_on_makedirs w (f a)) →
  aborts_on_makedirs w (m ≫= f).
Proof.
  intros Hm Hf s e. unfold mbind, prov_bind. specialize (Hm s).
  destruct (m s) as [[a|e'] s']; cbn in *; [apply Hf | intros [= ->]; by apply Hm].
Qed.

Lemma aborts_os_makedirs (path : string) :
  path ∈ cache_directories → aborts_on_makedirs w (os_makedirs w path).
Proof.
  intros Hpath s e. unfold os_makedirs.
  destruct (makedirs w path) as [msg|] eqn:Hmk; cbn; [|done].
  intros [= <-]. by exists path, msg.
Qed.

Lemma keeps_logger_other (entry : level * string) (lvl : level) (msg : string) :
  (lvl, msg) ≠ entry → keeps (fun s => bool_decide (entry ∈ log s)) (logger lvl msg).
Proof.
  intros Hne s. unfold logger. cbn.
  apply bool_decide_ext. rewrite elem_of_app, list_elem_of_singleton. naive_solver.
Qed.

End Aborts.

(** Frame goals on the presence of one record in the log. *)
Ltac log_frame_step :=
  first
    [ apply keeps_ret
    | apply keeps_raise
    | apply keeps_bind; [|intros ?]
    | apply keeps_try_except; [|intros ?]
    | apply keeps_for_each; intros ?
    | apply keeps_logger_other; other_record
    | match goal with
      | |- keeps _ (match ?x with _ => _ end) => destruct x
      | |- keeps _ (if ?x then _ else _) => destruct x
      end
    | by intros ? ].

Section Start_up.
Context (cfg : Config) (w : World).

Lemma load_models_from_minio_aborts : aborts_on_makedirs w (load_models_from_minio cfg w).
Proof.
  unfold load_models_from_minio.
  apply aborts_bind; [apply aborts_os_makedirs; set_solver | intros _].
  apply aborts_bind; [apply aborts_os_makedirs; set_solver | intros _].
  apply aborts_returns.
  repeat first
    [ apply returns_ret | apply returns_logger | apply download_from_minio_returns
    | apply returns_bind; [|intros ?]
    | apply returns_for_each; intros ?
    | match goal with |- returns (if ?b then _ else _) => destruct b end
    | (intros ?; by eexists) ].
Qed.

Lemma load_models_from_huggingface_aborts :
  aborts_on_makedirs w (load_models_from_huggingface cfg w).
Proof.
  unfold load_models_from_huggingface.
  apply aborts_bind; [apply aborts_os_makedirs; set_solver | intros _].
  apply aborts_returns, returns_try_except. intros e.
  apply returns_bind; [apply returns_logger | intros _; apply returns_ret].
Qed.

Lemma boot_aborts :
  aborts_on_makedirs w (init_minio_client cfg w;; logger INFO "Starting Qwen API service...";;
                        load_models cfg w).
Proof.
  pose proof load_models_from_minio_aborts as Hminio.
  pose proof load_models_from_huggingface_aborts as Hhub.
  assert (Hfallback : aborts_on_makedirs w (fallback_to_minio cfg w)).
  { unfold fallback_to_minio.
    apply aborts_bind; [by apply aborts_returns; intros s; eexists | intros [client|]].
    - apply aborts_bind; [apply aborts_returns, returns_logger | intros _].
      apply aborts_bind; [done | intros _]. apply aborts_returns, returns_logger.
    - apply aborts_returns, returns_logger. }
  apply aborts_bind.
  { apply aborts_returns. intros s. destruct (init_minio_client_spec cfg w s) as [-> _]. eauto. }
  intros _. apply aborts_bind; [apply aborts_returns, returns_logger | intros _].
  unfold load_models. destruct (USE_HUGGINGFACE cfg); [|done].
  apply aborts_bind; [apply aborts_returns, returns_logger | intros _].
  apply aborts_bind; [done | intros [|]].
  - apply aborts_returns, returns_logger.
  - apply aborts_bind; [apply aborts_returns, returns_logger | by intros _].
Qed.

Lemma boot_not_started :
  keeps (fun s => bool_decide (started_line ∈ log s))
    (init_minio_client cfg w;; logger INFO "Starting Qwen API service...";;
     load_models cfg w).
Proof.
  unfold init_minio_client, load_models, fallback_to_minio, load_models_from_huggingface,
    load_models_from_minio, download_from_minio, os_makedirs.
  repeat log_frame_step.
Qed.

(** X11: start-up ends in one of two ways. Either it returns, and the
    last record of the log is "Qwen API service started"; or it raises,
    and then the exception is [os.makedirs] refusing one of the three
    cache directories (the calls that stand outside every [try]), and the
    log has no "Qwen API service started". No failure of the storage
    client, of the hub download, of the load into memory or of an object
    fetch stops start-up. *)
Theorem start_up_aborts_only_on_cache_directories (disk : gset string) :
  match (boot cfg w disk).1 with
  | Return _ => last (log (boot cfg w disk).2) = Some started_line
  | Raise e => makedirs_refusal w e ∧ started_line ∉ log (boot cfg w disk).2
  end.
Proof.
  pose proof (boot_aborts (mkState None QNone [] [] disk)) as Habort.
  pose proof (boot_not_started (mkState None QNone [] [] disk)) as Hlog.
  unfold boot, startup.
  change (init_minio_client cfg w;;
          (logger INFO "Starting Qwen API service...";; load_models cfg w;;
           logger INFO "Qwen API service started"))
    with (init_minio_client cfg w ≫= (fun _ =>
            logger INFO "Starting Qwen API service..." ≫= (fun _ =>
              load_models cfg w ≫= (fun _ => logger INFO "Qwen API service started")))).
  unfold mbind, prov_bind in *.
  destruct (init_minio_client cfg w _) as [[[]|e1] s1]; cbn in *.
  - destruct (load_models cfg w _) as [[[]|e2] s2]; cbn in *.
    + by rewrite last_snoc.
    + split; [by apply Habort|]. by apply bool_decide_eq_false in Hlog.
  - split; [by apply Habort|]. by apply bool_decide_eq_false in Hlog.
Qed.

(** X12: with the hub selected, a hub cache directory that cannot be made
    is fatal: [os.makedirs] stands before the [try] of the hub routine, so
    start-up raises its exception, the object-storage fallback is not
    attempted even when a client exists, and no model is set. *)
Theorem hub_cache_refusal_is_fatal (disk : gset string) (msg : string) :
  USE_HUGGINGFACE cfg = true →
  makedirs w HUGGINGFACE_CACHE_DIR = Some msg →
  (boot cfg w disk).1 = Raise (Exception msg) ∧
  ¬ fallback_attempted (boot cfg w disk).2 ∧
  qwen_model (boot cfg w disk).2 = QNone.
Proof.
  intros Hflag Hmk. unfold boot, startup, load_models, load_models_from_huggingface, os_makedirs.
  rewrite Hflag, Hmk.
  destruct (init_minio_client_spec cfg w (mkState None QNone [] [] disk)) as (Hret & _).
  destruct (init_minio_client_frame cfg w) as (Hq & Ha).
  specialize (Hq (mkState None QNone [] [] disk)).
  specialize (Ha (mkState None QNone [] [] disk)).
  unfold mbind, prov_bind.
  destruct (init_minio_client cfg w _) as [r s1]; cbn in *. subst r. cbn.
  split_and!; [done | | done].
  rewrite fallback_attempted_spec.
  unfold attempted in *. cbn. rewrite bool_decide_eq_false in Ha.
  rewrite bool_decide_eq_true, !elem_of_app, !list_elem_of_singleton.
  intros [[?|H]|H]; [done | |]; vm_compute in H; discriminate H.
Qed.

End Start_up.

(** A read-only model volume, with storage credentials in place. *)
Lemma hub_cache_refusal_is_fatal_witness :
  let cfg := deployment true "minio" "secret" in
  let run := boot cfg read_only_host ∅ in
  USE_HUGGINGFACE cfg = true ∧
  makedirs read_only_host HUGGINGFACE_CACHE_DIR
    = Some "[Errno 30] Read-only file system: '/app/models/huggingface'" ∧
  minio_client run.2 = Some storage_client ∧
  run.1 = Raise (Exception "[Errno 30] Read-only file system: '/app/models/huggingface'") ∧
  ¬ fallback_attempted run.2 ∧
  qwen_model run.2 = QNone.
Proof.
  intros cfg run.
  destruct (hub_cache_refusal_is_fatal cfg read_only_host ∅
              "[Errno 30] Read-only file system: '/app/models/huggingface'"
              eq_refl eq_refl) as (Hraise & Hfallback & Hmodel).
  split_and!; [reflexivity | reflexivity | reflexivity | exact Hraise | exact Hfallback
              | exact Hmodel].
Defined.

(** ** The environment *)

(** X13: [USE_HUGGINGFACE] selects the hub only when it is unset or its
    value is the word "true" in any letter case. With any other value,
    such as "1" or "yes", the flag is off, and then on every host and
    disk the service holds no model after start-up and the listing
    reports [loaded] as false. *)
Theorem hub_flag_is_the_word_true (env : gmap string string) (text : string) :
  env !! "USE_HUGGINGFACE" = Some text →
  lower text ≠ "true" →
  USE_HUGGINGFACE (config_of_env env) = false ∧
  ∀ (w : World) (disk : gset string),
    qwen_model (boot (config_of_env env) w disk).2 = QNone ∧
    model_info_field (config_of_env env) (boot (config_of_env env) w disk).2 "loaded"
      = VBool false.
Proof.
  intros Henv Htext.
  assert (Hflag : USE_HUGGINGFACE (config_of_env env) = false).
  { cbn. unfold getenv_flag, getenv. rewrite Henv. by apply String.eqb_neq. }
  split; [done|]. intros w disk.
  pose proof (boot_model (config_of_env env) w disk) as Hmodel.
  rewrite Hflag in Hmodel. split; [done|].
  by apply unset_model_is_not_loaded.
Qed.

(** The flag set to "yes", on a host whose hub would serve the model. *)
Lemma hub_flag_is_the_word_true_witness :
  let env : gmap string string := {["USE_HUGGINGFACE" := "yes"]} in
  env !! "USE_HUGGINGFACE" = Some "yes" ∧
  lower "yes" ≠ "true" ∧
  USE_HUGGINGFACE (config_of_env env) = false ∧
  qwen_model (boot (config_of_env env) low_memory_host ∅).2 = QNone.
Proof.
  intros env.
  assert (Hword : lower "yes" ≠ "true") by (intros H; vm_compute in H; discriminate H).
  destruct (hub_flag_is_the_word_true env "yes" eq_refl Hword) as (Hflag & Hmodel).
  split_and!; [reflexivity | exact Hword | exact Hflag
              | exact (proj1 (Hmodel low_memory_host ∅))].
Defined.

(** ** LoRAs *)

(** X14: no routine of the start-up run assigns [lora_models]: whatever
    the configuration, the host and the disk, and even when every LoRA
    file was fetched, the registry is empty after start-up and the
    listing reports no available LoRA. *)
Theorem no_lora_is_ever_listed (cfg : Config) (w : World) (disk : gset string) :
  lora_models (boot cfg w disk).2 = [] ∧
  listed_loras cfg (boot cfg w disk).2 = VList [].
Proof.
  assert (Hkeep : keeps lora_models (init_minio_client cfg w;; startup cfg w)).
  { unfold init_minio_client, startup, load_models, fallback_to_minio,
      load_models_from_huggingface, load_models_from_minio, download_from_minio, os_makedirs.
    repeat first
      [ frame_step
      | match goal with |- keeps _ (if ?x then _ else _) => destruct x end ]. }
  specialize (Hkeep (mkState None QNone [] [] disk)). fold (boot cfg w disk) in Hkeep.
  cbn in Hkeep. split; [done|].
  unfold listed_loras, list_models, response_field. cbn. by rewrite Hkeep.
Qed.
